(** * Pharmacy inventory check: the sheet store (gs.py) and the counting page

    A shallow embedding of [gs.py] and of the script
    [pages/1_藥師盤點.py], its row loop and its two handlers, with the
    properties of the specification stated over it.

    Conventions of the embedding.
    - A Python [str] is a [string]; non-ASCII text is held as its UTF-8
      bytes, and read character by character where the code is:
      [str.strip] removes the white space of [str.isspace] and
      [str.isdigit] and [int] know the digits of Unicode (as of Unicode
      14).  Integers are unbounded; the cap CPython puts on the length
      of the decimal text of an [int] is left out.
    - A record ([Dict[str, Any]]) is an association list in insertion
      order; its values are [str] or [int].
    - A worksheet is the list of its rows of cell text, first row first.
      [get_all_values] pads the rows to one width, as gspread does.
    - A DataFrame cell is [option string]: [None] is [pd.NA].  The pandas
      operations keep their library meaning: [astype(str)] turns [pd.NA]
      into the text [<NA>], [fillna] fills what is still missing, and
      [pd.NA] has no truth value ([bool(pd.NA)] raises [TypeError]).
    - [read_df] is memoised by [st.cache_data]: the store carries the
      memo table.  The five-second expiry is left out: an entry stays
      until [cache_data_clear] drops it. *)

From Stdlib Require Import ZArith String Ascii List DecimalString DecimalPos.
From stdpp Require Import gmap strings list fin_maps.

Open Scope string_scope.
Open Scope Z_scope.
Open Scope list_scope.

(** ** Python values and strings *)

Inductive value : Type :=
| VStr (s : string)
| VInt (z : Z).

(** [str(v)] *)
Definition str (v : value) : string :=
  match v with
  | VStr s => s
  | VInt z => NilZero.string_of_int (Z.to_int z)
  end.

(** The value of a byte. *)
Definition byte (c : ascii) : Z := Z.of_nat (nat_of_ascii c).

(** A continuation byte of UTF-8. *)
Definition is_cont (c : ascii) : bool := (128 <=? byte c) && (byte c <? 192).

(** The character at the head of a text, as its code point, and the text
    after it; [None] at the end of the text and where the bytes at the
    head are not the UTF-8 of a character. *)
Definition next_char (s : string) : option (Z * string) :=
  match s with
  | EmptyString => None
  | String b0 s1 =>
      if byte b0 <? 128 then Some (byte b0, s1)
      else if byte b0 <? 192 then None
      else if byte b0 <? 224 then
        match s1 with
        | String b1 s2 =>
            if is_cont b1
            then Some ((byte b0 - 192) * 64 + (byte b1 - 128), s2)
            else None
        | _ => None
        end
      else if byte b0 <? 240 then
        match s1 with
        | String b1 (String b2 s3) =>
            if is_cont b1 && is_cont b2
            then Some (((byte b0 - 224) * 64 + (byte b1 - 128)) * 64
                       + (byte b2 - 128), s3)
            else None
        | _ => None
        end
      else
        match s1 with
        | String b1 (String b2 (String b3 s4)) =>
            if is_cont b1 && is_cont b2 && is_cont b3
            then Some ((((byte b0 - 240) * 64 + (byte b1 - 128)) * 64
                        + (byte b2 - 128)) * 64 + (byte b3 - 128), s4)
            else None
        | _ => None
        end
  end.

(** [c.isspace()], on the code point of [c]. *)
Definition isspace (c : Z) : bool :=
  ((0x09 <=? c) && (c <=? 0x0D)) || ((0x1C <=? c) && (c <=? 0x20))
  || (c =? 0x85) || (c =? 0xA0) || (c =? 0x1680)
  || ((0x2000 <=? c) && (c <=? 0x200A))
  || (c =? 0x2028) || (c =? 0x2029) || (c =? 0x202F) || (c =? 0x205F)
  || (c =? 0x3000).

(** Drop white space from the head, one character a turn; a text has no
    more characters than bytes. *)
Fixpoint lstrip_loop (fuel : nat) (s : string) : string :=
  match fuel with
  | O => s
  | S fuel' =>
      match next_char s with
      | Some (c, rest) => if isspace c then lstrip_loop fuel' rest else s
      | None => s
      end
  end.

(** [s.lstrip()] *)
Definition lstrip (s : string) : string := lstrip_loop (String.length s) s.

(** [s.rstrip()]: the text is cut at the first place after which there is
    white space only. *)
Fixpoint rstrip (s : string) : string :=
  match s with
  | EmptyString => EmptyString
  | String b s' =>
      if String.eqb (lstrip s) "" then EmptyString else String b (rstrip s')
  end.

(** [s.strip()] *)
Definition strip (s : string) : string := rstrip (lstrip s).

Definition is_upper (c : ascii) : bool :=
  let n := nat_of_ascii c in (65 <=? n)%nat && (n <=? 90)%nat.

Definition is_lower (c : ascii) : bool :=
  let n := nat_of_ascii c in (97 <=? n)%nat && (n <=? 122)%nat.

(** The character class [[A-Za-z]]. *)
Definition is_letter (c : ascii) : bool := is_upper c || is_lower c.

(** [c.upper()] on a single character. *)
Definition upper (c : ascii) : ascii :=
  if is_lower c then ascii_of_nat (nat_of_ascii c - 32) else c.

(** ** Records *)

Abbreviation record := (list (string * value)).

(** [record.get(k, d)] *)
Fixpoint dict_get (r : record) (k : string) (d : value) : value :=
  match r with
  | [] => d
  | (k', v) :: r' => if String.eqb k' k then v else dict_get r' k d
  end.

(** [record.keys()] *)
Definition dict_keys (r : record) : list string := r.*1.

(** [[record.get(h, "") for h in headers]], as the cell text it is stored as. *)
Definition project (r : record) (headers : list string) : list string :=
  (fun h => str (dict_get r h (VStr ""))) <$> headers.

(** ** Column letters (gs.py, [_col_letter]) *)

(** The [while n:] loop; [None] when the fuel runs out. *)
Fixpoint col_letter_loop (fuel : nat) (n : Z) (s : string) : option string :=
  if n =? 0 then Some s
  else match fuel with
       | O => None
       | S fuel' =>
           let q := (n - 1) `div` 26 in
           let r := (n - 1) `mod` 26 in
           col_letter_loop fuel' q (String (ascii_of_nat (Z.to_nat (r + 65))) s)
       end.

Definition _col_letter (n : Z) : option string :=
  col_letter_loop (Z.to_nat n) n "".

(** The column number an A1 label stands for: A = 1, ..., Z = 26, AA = 27. *)
Definition col_index_from (acc : Z) (s : string) : Z :=
  fold_left (fun a c => a * 26 + (Z.of_nat (nat_of_ascii c) - 64))
            (list_ascii_of_string s) acc.

Definition col_index (s : string) : Z := col_index_from 0 s.

Definition label_ok (s : string) : Prop :=
  Forall (fun c => is_upper c = true) (list_ascii_of_string s).

(** The place value of the digit in front of [s]. *)
Definition weight (s : string) : Z := 26 ^ Z.of_nat (String.length s).

(** ** The remote workbook *)

(** A worksheet: rows of cell text. *)
Abbreviation grid := (list (list string)).

Abbreviation cell := (option string).

Record DataFrame : Type := mkFrame {
  columns : list string;
  records : list (list cell)
}.

Definition empty_frame : DataFrame := mkFrame [] [].

(** The workbook [_SH] and the memo table of [st.cache_data]. *)
Record world : Type := mkWorld {
  sheets : gmap string grid;
  cache : gmap string DataFrame
}.

Inductive exn : Type := KeyError | TypeError | ValueError | AttributeError | APIError.

Inductive outcome (A : Type) : Type :=
| Ret (a : A)
| Raise (e : exn)
| Hang.
Arguments Ret {A} a.
Arguments Raise {A} e.
Arguments Hang {A}.

(** State that survives an exception. *)
Definition M (A : Type) : Type := world -> outcome A * world.

Definition ret {A} (a : A) : M A := fun w => (Ret a, w).

Definition bind {A B} (m : M A) (f : A -> M B) : M B :=
  fun w =>
    match m w with
    | (Ret a, w') => f a w'
    | (Raise e, w') => (Raise e, w')
    | (Hang, w') => (Hang, w')
    end.

Definition lift {A} (o : outcome A) : M A := fun w => (o, w).

Notation "'do' x <- m ; k" := (bind m (fun x => k))
  (at level 10, x name, m at level 100, k at level 200).
Notation "'run' m ; k" := (bind m (fun _ => k))
  (at level 10, m at level 100, k at level 200).

(** *** gspread's worksheet calls, on the grid *)

Definition row_width (g : grid) : nat := max_list (length <$> g).

Definition pad (n : nat) (r : list string) : list string :=
  r ++ replicate (n - length r) "".

(** [ws.get_all_values()] *)
Definition get_all_values (g : grid) : grid := pad (row_width g) <$> g.

(** [ws.append_row(row)] *)
Definition grid_append_row (row : list string) (g : grid) : grid := g ++ [row].

(** [ws.delete_rows(1)] *)
Definition grid_delete_first (g : grid) : grid := tail g.

(** [ws.insert_row(row, 1)] *)
Definition grid_insert_first (row : list string) (g : grid) : grid := row :: g.

(** An A1 range [{first_col}{first_row}:{last_col}{last_row}]. *)
Record a1_range : Type := mkRange {
  first_col : string;
  first_row : Z;
  last_col : string;
  last_row : Z
}.

Definition range_width (rg : a1_range) : Z :=
  col_index (last_col rg) - col_index (first_col rg) + 1.

Definition range_height (rg : a1_range) : Z :=
  last_row rg - first_row rg + 1.


(** Overwrite the cells of [row] from 0-based column [c0] on with [vals]. *)
Definition write_cells (c0 : nat) (vals row : list string) : list string :=
  take c0 (pad c0 row) ++ vals ++ drop (c0 + length vals) row.

Fixpoint write_rows (r0 c0 : nat) (values : grid) (g : grid) : grid :=
  match values with
  | [] => g
  | v :: vs =>
      let g' := g ++ replicate (S r0 - length g) [] in
      write_rows (S r0) c0 vs
        (<[r0 := write_cells c0 v (default [] (g' !! r0))]> g')
  end.

(** [ws.update(range, values)]: the values have to fit in the range. *)
Definition grid_update (rg : a1_range) (values : grid) (g : grid) : outcome grid :=
  if bool_decide (Z.of_nat (length values) <= range_height rg)
     && forallb (fun v => bool_decide (Z.of_nat (length v) <= range_width rg)) values
  then Ret (write_rows (Z.to_nat (first_row rg - 1))
                       (Z.to_nat (col_index (first_col rg) - 1)) values g)
  else Raise APIError.

(** *** Worksheet handles *)

(** A handle [ws] is the sheet's name; its calls act on the workbook. *)
Definition ws_grid (name : string) (w : world) : grid :=
  default [] (sheets w !! name).

Definition ws_get_all_values (name : string) : M grid :=
  fun w => (Ret (get_all_values (ws_grid name w)), w).

Definition ws_set (name : string) (g : grid) : M unit :=
  fun w => (Ret tt, mkWorld (<[name := g]> (sheets w)) (cache w)).

Definition ws_apply (name : string) (f : grid -> grid) : M unit :=
  fun w => ws_set name (f (ws_grid name w)) w.

Definition ws_append_row (name : string) (row : list string) : M unit :=
  ws_apply name (grid_append_row row).

Definition ws_update (name : string) (rg : a1_range) (values : grid) : M unit :=
  fun w =>
    match grid_update rg values (ws_grid name w) with
    | Ret g => ws_set name g w
    | Raise e => (Raise e, w)
    | Hang => (Hang, w)
    end.

(** [if headers:] *)
Definition given (headers : option (list string)) : option (list string) :=
  match headers with
  | Some (h :: hs) => Some (h :: hs)
  | _ => None
  end.

(** gs.py, [ensure_worksheet]; the handle returned is [name]. *)
Definition ensure_worksheet (name : string) (headers : option (list string)) : M unit :=
  fun w =>
    match sheets w !! name with
    | None =>
        (run ws_set name [] ;
         match given headers with
         | Some hs => ws_append_row name hs
         | None => ret tt
         end) w
    | Some ws =>
        match given headers with
        | Some hs =>
            (do vals <- ws_get_all_values name ;
             if bool_decide (length vals = 0%nat) then ws_append_row name hs
             else ret tt) w
        | None => ret tt w
        end
    end.

(** *** DataFrames *)

(** [pd.DataFrame(records, columns=headers)] *)
Definition frame_of (headers : list string) (recs : grid) : DataFrame :=
  mkFrame headers ((fun r : list string => Some <$> r) <$> recs).

Definition blank_to_na (c : cell) : cell :=
  match c with
  | Some s => if String.eqb s "" then None else Some s
  | None => None
  end.

(** [df.replace("", pd.NA)] *)
Definition replace_blank (df : DataFrame) : DataFrame :=
  mkFrame (columns df) ((fun r : list cell => blank_to_na <$> r) <$> records df).

(** [df.empty] *)
Definition frame_empty (df : DataFrame) : bool :=
  bool_decide (columns df = []) || bool_decide (records df = []).

(** The body of [read_df], without the memo. *)
Definition read_df_body (sheet_name : string) (sh : gmap string grid) : DataFrame :=
  match sh !! sheet_name with
  | None => empty_frame
  | Some ws =>
      match get_all_values ws with
      | [] => empty_frame
      | headers :: recs => replace_blank (frame_of headers recs)
      end
  end.

(** gs.py, [read_df] under [st.cache_data]. *)
Definition read_df (sheet_name : string) : M DataFrame :=
  fun w =>
    match cache w !! sheet_name with
    | Some df => (Ret df, w)
    | None =>
        let df := read_df_body sheet_name (sheets w) in
        (Ret df, mkWorld (sheets w) (<[sheet_name := df]> (cache w)))
    end.

(** [st.cache_data.clear()] *)
Definition cache_data_clear : M unit :=
  fun w => (Ret tt, mkWorld (sheets w) ∅).

(** Positions of the columns labelled [k], counted from [i]. *)
Fixpoint find_cols (k : string) (cols : list string) (i : nat) : list nat :=
  match cols with
  | [] => []
  | c :: cs =>
      if String.eqb c k then i :: find_cols k cs (S i) else find_cols k cs (S i)
  end.

(** [df[k]]: a column when exactly one carries the label.  No column of
    that label is a [KeyError]; a label several columns carry selects a
    frame, on which the mask arithmetic of [upsert_row] fails. *)
Definition frame_col (df : DataFrame) (k : string) : outcome (list cell) :=
  match find_cols k (columns df) 0 with
  | [] => Raise KeyError
  | [j] => Ret ((fun r : list cell => default None (r !! j)) <$> records df)
  | _ => Raise ValueError
  end.

(** [.astype(str)] *)
Definition astype_str (col : list cell) : list cell :=
  (fun c => match c with Some s => Some s | None => Some "<NA>" end) <$> col.

(** [.fillna(d)] *)
Definition fillna (d : string) (col : list cell) : list cell :=
  (fun c => match c with Some s => Some s | None => Some d end) <$> col.

(** [col == t] *)
Definition eq_text (col : list cell) (t : string) : list bool :=
  (fun c => match c with Some s => String.eqb s t | None => false end) <$> col.

(** The loop [for k in key_cols: mask &= ...]. *)
Fixpoint key_mask (df : DataFrame) (key_cols : list string) (rec : record)
         (mask : list bool) : outcome (list bool) :=
  match key_cols with
  | [] => Ret mask
  | k :: ks =>
      match frame_col df k with
      | Ret col =>
          key_mask df ks rec
            (zip_with andb mask
               (eq_text (fillna "" (astype_str col)) (str (dict_get rec k (VStr "")))))
      | Raise e => Raise e
      | Hang => Hang
      end
  end.

(** [mask[mask].index[0]] when [mask.any()]. *)
Fixpoint first_true (mask : list bool) : option nat :=
  match mask with
  | [] => None
  | b :: bs => if b then Some 0%nat else S <$> first_true bs
  end.

(** *** gs.py, the writers *)

Definition _normalize_headers (ws : string) (rec : record) : M (list string) :=
  do values <- ws_get_all_values ws ;
  let headers := match values with h :: _ => h | [] => [] end in
  let missing := filter (fun k => k ∉ headers) (dict_keys rec) in
  match missing with
  | _ :: _ =>
      let new_headers := headers ++ missing in
      run ws_apply ws grid_delete_first ;
      run ws_apply ws (grid_insert_first new_headers) ;
      ret new_headers
  | [] => ret headers
  end.

Definition append_row (sheet_name : string) (rec : record) : M unit :=
  run ensure_worksheet sheet_name None ;
  do headers <- _normalize_headers sheet_name rec ;
  ws_append_row sheet_name (project rec headers).

(** The range [f"A{row_number}:{_col_letter(len(headers))}{row_number}"]. *)
Definition upsert_range (row_number : Z) (headers : list string) : outcome a1_range :=
  match _col_letter (Z.of_nat (length headers)) with
  | Some label => Ret (mkRange "A" row_number label row_number)
  | None => Hang
  end.

Definition upsert_row (sheet_name : string) (key_cols : list string) (rec : record) : M unit :=
  run ensure_worksheet sheet_name None ;
  do headers <- _normalize_headers sheet_name rec ;
  do df <- read_df sheet_name ;
  if frame_empty df then ws_append_row sheet_name (project rec headers)
  else
    do mask <- lift (key_mask df key_cols rec (replicate (length (records df)) true)) ;
    match first_true mask with
    | Some idx =>
        let row_number := Z.of_nat idx + 2 in
        do rg <- lift (upsert_range row_number headers) ;
        ws_update sheet_name rg [project rec headers]
    | None => ws_append_row sheet_name (project rec headers)
    end.

Definition audit_headers : list string :=
  ["ts"; "device"; "zone"; "drug_code"; "field"; "old_value"; "new_value"; "user"].

Definition append_audit (log : record) : M unit :=
  run ensure_worksheet "Audit_Log" (Some audit_headers) ;
  ws_append_row "Audit_Log" (project log audit_headers).

(** ** The counting page (pages/1_藥師盤點.py) *)

Definition COL_NAME : string := "藥品名稱".
Definition COL_LOC : string := "儲位".
Definition COL_QTY : string := "盤點數量".
Definition COL_OWNER : string := "盤點人".
Definition COL_NOTE : string := "備註".
Definition COL_TIME : string := "盤點時間".

Definition UNCLASSIFIED : string := "未分類".
Definition NEW_ITEM : string := "新增項目".

(** [extract_zone]: [loc] is a [str], or [pd.NA], which is not one. *)
Definition extract_zone (loc : cell) : string :=
  match loc with
  | None => UNCLASSIFIED
  | Some s =>
      match strip s with
      | String c _ => if is_letter c then String (upper c) "" else UNCLASSIFIED
      | EmptyString => UNCLASSIFIED
      end
  end.


(** A row of the frame, as [iterrows] yields it. *)
Abbreviation Series := (list (string * cell)).

Definition frame_row (df : DataFrame) (idx : nat) : option Series :=
  zip (columns df) <$> (records df !! idx).

(** [row.get(label, d)] *)
Fixpoint row_get (row : Series) (label : string) (d : string) : cell :=
  match row with
  | [] => Some d
  | (l, c) :: row' => if String.eqb l label then c else row_get row' label d
  end.

(** [str(x or "")]: the truth value of [pd.NA] is undefined. *)
Definition str_or_empty (x : cell) : outcome string :=
  match x with
  | None => Raise TypeError
  | Some s => if String.eqb s "" then Ret "" else Ret s
  end.

(** The names bound at the top of the row loop. *)
Record locals : Type := mkLocals {
  l_name : string;
  l_loc : string;
  l_qty : cell;
  l_note : string;
  l_owner_existing : string;
  l_time_existing : string
}.

Definition row_locals (row : Series) : outcome locals :=
  match str_or_empty (row_get row COL_NAME "") with
  | Ret name =>
    match str_or_empty (row_get row COL_LOC "") with
    | Ret loc =>
      let qty := row_get row COL_QTY "" in
      match str_or_empty (row_get row COL_NOTE "") with
      | Ret note =>
        match str_or_empty (row_get row COL_OWNER "") with
        | Ret owner_existing =>
          match str_or_empty (row_get row COL_TIME "") with
          | Ret time_existing =>
              Ret (mkLocals name loc qty note owner_existing time_existing)
          | Raise e => Raise e | Hang => Hang
          end
        | Raise e => Raise e | Hang => Hang
        end
      | Raise e => Raise e | Hang => Hang
      end
    | Raise e => Raise e | Hang => Hang
    end
  | Raise e => Raise e | Hang => Hang
  end.

(** The ownership gate. *)
Definition can_edit (owner_existing user : string) : bool :=
  String.eqb (strip owner_existing) "" || String.eqb (strip owner_existing) (strip user).

Definition save_payload (name loc : string) (new_qty : Z) (new_note user now : string) : record :=
  [ (COL_NAME, VStr name); (COL_LOC, VStr loc); (COL_QTY, VInt new_qty);
    (COL_NOTE, VStr new_note); (COL_OWNER, VStr user); (COL_TIME, VStr now) ].

(** The body of the save button, for the row whose values are [lc].  The
    script passes the keys as a dict; [upsert_row] walks its keys. *)
Definition save_handler (sheet_name device user now : string) (lc : locals)
           (new_qty : Z) (new_note : string) : M unit :=
  let name := l_name lc in
  let loc := l_loc lc in
  let key_cols := [COL_NAME; COL_LOC] in
  do old_val <- lift (str_or_empty (l_qty lc)) ;
  let new_val := str (VInt new_qty) in
  let payload := save_payload name loc new_qty new_note user now in
  run upsert_row sheet_name key_cols payload ;
  run (if negb (String.eqb old_val new_val)
       then append_audit
              [ ("ts", dict_get payload COL_TIME (VStr ""));
                ("device", VStr device);
                ("zone", VStr (extract_zone (Some loc)));
                ("drug_code", VStr name);
                ("field", VStr COL_QTY);
                ("old_value", VStr old_val);
                ("new_value", VStr new_val);
                ("user", VStr user) ]
       else ret tt) ;
  cache_data_clear.

(** The body of the add button. *)
Definition add_handler (sheet_name device user now : string)
           (new_name new_loc : string) (new_qty_val : Z) (new_note_val : string) : M unit :=
  if String.eqb new_name "" || String.eqb new_loc "" then ret tt
  else
    let payload :=
      [ (COL_NAME, VStr (strip new_name)); (COL_LOC, VStr (strip new_loc));
        (COL_QTY, VInt new_qty_val); (COL_NOTE, VStr (strip new_note_val));
        (COL_OWNER, VStr user); (COL_TIME, VStr now) ] in
    run append_row sheet_name payload ;
    run append_audit
          [ ("ts", dict_get payload COL_TIME (VStr ""));
            ("device", VStr device);
            ("zone", VStr (extract_zone (Some new_loc)));
            ("drug_code", VStr (strip new_name));
            ("field", VStr NEW_ITEM);
            ("old_value", VStr "");
            ("new_value", VStr (COL_QTY +:+ "=" +:+ str (dict_get payload COL_QTY (VStr ""))));
            ("user", VStr user) ] ;
    cache_data_clear.

(** [sheet_name], from the [device] parameter of the URL. *)
Definition ends_with (s suffix : string) : bool :=
  String.prefix (String.rev suffix) (String.rev s).

Definition sheet_name_of (device : string) : string :=
  if existsb (ends_with device) ["台"; "區"; "超市"]
  then "分表-" +:+ device
  else "分表-" +:+ device +:+ "台".

(** ** What a write leaves in the sheet

    The header and the grid [_normalize_headers] leaves, and the row an
    upsert settles on, as functions of the grid before the call. *)

Definition header_of (g : grid) : list string :=
  match get_all_values g with h :: _ => h | [] => [] end.

Definition missing_cols (rec : record) (headers : list string) : list string :=
  filter (fun k => k ∉ headers) (dict_keys rec).

Definition norm_headers (rec : record) (g : grid) : list string :=
  header_of g ++ missing_cols rec (header_of g).

Definition norm_grid (rec : record) (g : grid) : grid :=
  match missing_cols rec (header_of g) with
  | [] => g
  | _ :: _ => norm_headers rec g :: tail g
  end.

(** The text the key comparison sees for a stored cell. *)
Definition stored_text (c : string) : string :=
  if String.eqb c "" then "<NA>" else c.

(** Every key column of the stored row compares equal to the record's. *)
Definition row_matches (hdr key_cols : list string) (rec : record)
           (row : list string) : bool :=
  forallb (fun k =>
             match find_cols k hdr 0 with
             | [j] => String.eqb (stored_text (nth j row ""))
                                 (str (dict_get rec k (VStr "")))
             | _ => false
             end) key_cols.

(** The data row an upsert overwrites, if any. *)
Definition upsert_target (hdr key_cols : list string) (rec : record)
           (rows : grid) : option nat :=
  if bool_decide (hdr = []) then None
  else first_true (row_matches hdr key_cols rec <$> rows).

(** Each key column labels exactly one column of the header. *)
Definition labels_once (key_cols hdr : list string) : bool :=
  forallb (fun k => bool_decide (length (find_cols k hdr 0) = 1%nat)) key_cols.

(** The frame row a stored row is read as. *)
Definition as_read (row : list string) : list cell :=
  (fun c => blank_to_na (Some c)) <$> row.

(** The frame a fresh read yields once the header is normalised. *)
Definition frame_after (rec : record) (g : grid) : DataFrame :=
  mkFrame (norm_headers rec g)
          ((fun r => as_read (pad (length (norm_headers rec g)) r)) <$> tail g).

(** The grid an upsert leaves, from the grid it found. *)
Definition upsert_result (key_cols : list string) (rec : record) (g : grid) : grid :=
  let hdr := norm_headers rec g in
  match upsert_target hdr key_cols rec (tail g) with
  | Some i => <[S i := project rec hdr]> (norm_grid rec g)
  | None => norm_grid rec g ++ [project rec hdr]
  end.

Definition set_sheet (name : string) (g : grid) (w : world) : world :=
  mkWorld (<[name := g]> (sheets w)) (cache w).

(** The read inside [upsert_row] can be trusted and the key columns can
    be looked up: either nothing is cached for the sheet and each key
    column labels one column of the normalised header, or the cache holds
    the sheet as it stands and, unless there is no data row, each key
    column labels one column of the header already there. *)
Definition upsert_ready (name : string) (key_cols : list string) (rec : record)
           (w : world) : Prop :=
  (cache w !! name = None
   /\ labels_once key_cols (norm_headers rec (ws_grid name w)) = true)
  \/ (cache w !! name = Some (read_df_body name (sheets w))
      /\ (tail (ws_grid name w) = []
          \/ (header_of (ws_grid name w) <> []
              /\ labels_once key_cols (header_of (ws_grid name w)) = true))).

(** The audit sheet as [ensure_worksheet] leaves it before the append. *)
Definition audit_base (g : grid) : grid :=
  match g with
  | [] => [audit_headers]
  | _ :: _ => g
  end.

(** The comparison as the specification words it: a blank stored value
    counts as the empty string. *)
Definition row_matches_blank_as_empty (hdr key_cols : list string) (rec : record)
           (row : list string) : bool :=
  forallb (fun k =>
             match find_cols k hdr 0 with
             | [j] => String.eqb (nth j row "") (str (dict_get rec k (VStr "")))
             | _ => false
             end) key_cols.

Definition blank_loc_table : world :=
  mkWorld {[ "T" := [["name"; "loc"; "qty"]; ["Aspirin"; ""; "5"]] ]} ∅.

(** ** Sample tables *)

Definition stock_table : world :=
  mkWorld {[ "T" := [["name"; "loc"; "qty"]; ["Aspirin"; "B01"; "5"]] ]} ∅.



(** A counted table under the page's column names. *)
Definition stock_table_named : world :=
  mkWorld {[ "T" := [[COL_NAME; COL_LOC; COL_QTY]; ["Aspirin"; "B01"; "5"]] ]} ∅.

Definition aspirin_blank : world :=
  mkWorld {[ sheet_name_of "21" :=
               [[COL_NAME; COL_LOC; COL_QTY; COL_OWNER]; ["Aspirin"; "B01"; ""; ""]] ]} ∅.

(** Two rows under one name and location, the first counted by Alice,
    the second by Bob. *)
Definition twin_rows : world :=
  mkWorld {[ sheet_name_of "21" :=
               [[COL_NAME; COL_LOC; COL_QTY; COL_NOTE; COL_OWNER; COL_TIME];
                ["Aspirin"; "B01"; "5"; "a"; "Alice"; "2024-05-01 08:00:00"];
                ["Aspirin"; "B01"; "6"; "b"; "Bob"; "2024-05-01 08:30:00"]] ]} ∅.

(** A row whose operator cell is blank, the others filled in. *)
Definition unowned_row : world :=
  mkWorld {[ sheet_name_of "21" :=
               [[COL_NAME; COL_LOC; COL_QTY; COL_NOTE; COL_OWNER; COL_TIME];
                ["Aspirin"; "B01"; "5"; "a"; ""; "2024-05-01 08:00:00"]] ]} ∅.

(** A counted table of the device 21, every cell filled in. *)
Definition counted_table : world :=
  mkWorld {[ sheet_name_of "21" :=
               [[COL_NAME; COL_LOC; COL_QTY; COL_NOTE; COL_OWNER; COL_TIME];
                ["Aspirin"; "B01"; "5"; "a"; "Alice"; "2024-05-01 08:00:00"]] ]} ∅.

Definition aspirin_bare : world :=
  mkWorld {[ sheet_name_of "21" := [[COL_NAME; COL_LOC]; ["Aspirin"; "B01"]] ]} ∅.

(** ** The rest of the page *)

(** [device], from the query parameters of the URL. *)
Definition device_of (param : option string) : string :=
  strip (default "21" param).

(** [col.isna()] *)
Definition isna (col : list cell) : list bool :=
  (fun c => match c with None => true | Some _ => false end) <$> col.

(** [col.str.strip()] *)
Definition str_strip (col : list cell) : list cell :=
  (fun c : cell => match c with Some s => Some (strip s) | None => None end) <$> col.

(** [col.isna() | (col.astype(str).str.strip() == "")], the test written
    at the hide-completed filter and again at the progress count. *)
Definition blank_mask (col : list cell) : list bool :=
  zip_with orb (isna col) (eq_text (str_strip (astype_str col)) "").

(** [df[mask]] *)
Fixpoint select_rows {A} (rows : list A) (mask : list bool) : list A :=
  match rows, mask with
  | r :: rows', b :: mask' =>
      if b then r :: select_rows rows' mask' else select_rows rows' mask'
  | _, _ => []
  end.

(** [df[k]] where the code goes on to [.str] or [.unique()]: the frame
    that a label of several columns selects has neither. *)
Definition frame_text_col (df : DataFrame) (k : string) : outcome (list cell) :=
  match frame_col df k with
  | Raise ValueError => Raise AttributeError
  | o => o
  end.

(** Step 4 of the filters, when the box is ticked. *)
Definition hide_completed (df_view : DataFrame) : outcome DataFrame :=
  if frame_empty df_view then Ret df_view
  else match frame_text_col df_view COL_QTY with
       | Ret col => Ret (mkFrame (columns df_view)
                                 (select_rows (records df_view) (blank_mask col)))
       | Raise e => Raise e
       | Hang => Hang
       end.

(** [total_count] *)
Definition total_count (df : DataFrame) : nat :=
  if frame_empty df then 0%nat else length (records df).

(** [mask.sum()] *)
Definition count_true (mask : list bool) : nat :=
  length (filter (fun b => b = true) mask).

(** [done_count] *)
Definition done_count (df : DataFrame) : outcome nat :=
  if negb (frame_empty df) && bool_decide (COL_QTY ∈ columns df)
  then match frame_text_col df COL_QTY with
       | Ret col => Ret (count_true (negb <$> blank_mask col))
       | Raise e => Raise e
       | Hang => Hang
       end
  else Ret 0%nat.

(** The characters of a text, as code points; [None] for bytes that are
    not the UTF-8 of a text. *)
Fixpoint code_points_loop (fuel : nat) (s : string) : option (list Z) :=
  match s with
  | EmptyString => Some []
  | String _ _ =>
      match fuel with
      | O => None
      | S fuel' =>
          match next_char s with
          | Some (c, rest) => cons c <$> code_points_loop fuel' rest
          | None => None
          end
      end
  end.

Definition code_points (s : string) : option (list Z) :=
  code_points_loop (String.length s) s.

(** The digit zero of each run of decimal digits of Unicode (category
    Nd); the digits one to nine follow it. *)
Definition decimal_zeros : list Z :=
  [ 0x30; 0x660; 0x6F0; 0x7C0; 0x966; 0x9E6; 0xA66; 0xAE6; 0xB66; 0xBE6; 0xC66;
    0xCE6; 0xD66; 0xDE6; 0xE50; 0xED0; 0xF20; 0x1040; 0x1090; 0x17E0; 0x1810;
    0x1946; 0x19D0; 0x1A80; 0x1A90; 0x1B50; 0x1BB0; 0x1C40; 0x1C50; 0xA620;
    0xA8D0; 0xA900; 0xA9D0; 0xA9F0; 0xAA50; 0xABF0; 0xFF10; 0x104A0; 0x10D30;
    0x11066; 0x110F0; 0x11136; 0x111D0; 0x112F0; 0x11450; 0x114D0; 0x11650;
    0x116C0; 0x11730; 0x118E0; 0x11950; 0x11C50; 0x11D50; 0x11DA0; 0x16A60;
    0x16AC0; 0x16B50; 0x1D7CE; 0x1D7D8; 0x1D7E2; 0x1D7EC; 0x1D7F6; 0x1E140;
    0x1E2F0; 0x1E950; 0x1FBF0 ].

(** The characters that are digits without being decimal digits:
    superscripts, subscripts, circled digits and the like. *)
Definition other_digits : list (Z * Z) :=
  [ (0xB2, 0xB3); (0xB9, 0xB9); (0x1369, 0x1371); (0x19DA, 0x19DA);
    (0x2070, 0x2070); (0x2074, 0x2079); (0x2080, 0x2089); (0x2460, 0x2468);
    (0x2474, 0x247C); (0x2488, 0x2490); (0x24EA, 0x24EA); (0x24F5, 0x24FD);
    (0x24FF, 0x24FF); (0x2776, 0x277E); (0x2780, 0x2788); (0x278A, 0x2792);
    (0x10A40, 0x10A43); (0x10E60, 0x10E68); (0x11052, 0x1105A);
    (0x1F100, 0x1F10A) ].

(** The value of a decimal digit; [None] for any other character. *)
Definition digit_value (c : Z) : option Z :=
  match List.find (fun z => (z <=? c) && (c <=? z + 9)) decimal_zeros with
  | Some z => Some (c - z)
  | None => None
  end.

(** [c.isdigit()] *)
Definition char_isdigit (c : Z) : bool :=
  match digit_value c with
  | Some _ => true
  | None => existsb (fun r : Z * Z => (r.1 <=? c) && (c <=? r.2)) other_digits
  end.

(** [s.isdigit()] *)
Definition isdigit (s : string) : bool :=
  match code_points s with
  | Some (c :: cs) => forallb char_isdigit (c :: cs)
  | _ => false
  end.

Definition digit_cons (d : Z) (u : Decimal.uint) : Decimal.uint :=
  match d with
  | 0 => Decimal.D0 u | 1 => Decimal.D1 u | 2 => Decimal.D2 u
  | 3 => Decimal.D3 u | 4 => Decimal.D4 u | 5 => Decimal.D5 u
  | 6 => Decimal.D6 u | 7 => Decimal.D7 u | 8 => Decimal.D8 u
  | _ => Decimal.D9 u
  end.

(** [int(s)] for a text without sign, underscore or white space, as one
    that passed [isdigit] is: the number its decimal digits write, and
    [ValueError] when a character is not a decimal digit. *)
Definition py_int (s : string) : outcome Z :=
  match code_points s with
  | Some (c :: cs) =>
      match mapM digit_value (c :: cs) with
      | Some ds => Ret (Z.of_uint (foldr digit_cons Decimal.Nil ds))
      | None => Raise ValueError
      end
  | _ => Raise ValueError
  end.

(** [init_qty], the value the quantity box opens with: the cell is a
    [str] or [pd.NA], never an [int] or a [float]. *)
Definition init_qty (qty : cell) : outcome Z :=
  match qty with
  | Some s => if isdigit (strip s) then py_int (strip s) else Ret 0
  | None => Ret 0
  end.

(** An ASCII digit. *)
Definition is_digit (c : ascii) : bool :=
  let n := nat_of_ascii c in (48 <=? n)%nat && (n <=? 57)%nat.

(** The sheet as [ensure_worksheet] leaves it. *)
Definition ensured (headers : option (list string)) (g : grid) : grid :=
  match g, given headers with
  | [], Some hs => [hs]
  | _, _ => g
  end.

(** The characters of the text of an [int]. *)
Definition plain (c : ascii) : bool := is_digit c || Ascii.eqb c "-".

(** A cell that does not count as a quantity: missing, or white space. *)
Definition cell_blank (c : cell) : bool :=
  match c with
  | None => true
  | Some s => String.eqb (strip s) ""
  end.

(** ** One run of the script

    A run of the page with one button pressed at most.  What the
    operator set on the page comes in as arguments: the name, the zone
    picked, the two check boxes, and the button with the values of its
    form.  The search box is left empty.  Widgets return what was
    entered; the limits Streamlit sets on them are left out. *)

(** [col.dropna()] *)
Definition dropna (col : list cell) : list string := omap id col.

(** A stable sort, by insertion. *)
Fixpoint insert_by {A} (le : A -> A -> bool) (x : A) (l : list A) : list A :=
  match l with
  | [] => [x]
  | y :: l' => if le x y then x :: y :: l' else y :: insert_by le x l'
  end.

Definition sort_by {A} (le : A -> A -> bool) (l : list A) : list A :=
  foldr (insert_by le) [] l.

Definition ZONE : string := "區域".

(** [zones], lines 93-98: the zones of the table, in the order of
    [sorted]; text is ordered by code point, which is the order of its
    UTF-8 bytes. *)
Definition zones (df : DataFrame) : outcome (list string) :=
  if frame_empty df || negb (bool_decide (COL_LOC ∈ columns df))
  then Ret [UNCLASSIFIED]
  else
    match frame_text_col df COL_LOC with
    | Ret col =>
        match sort_by String.leb
                (remove_dups ((fun s => extract_zone (Some s)) <$> dropna col)) with
        | [] => Ret [UNCLASSIFIED]
        | z :: zs => Ret (z :: zs)
        end
    | Raise e => Raise e
    | Hang => Hang
    end.

(** The widgets of the page: the zone picked in the select box, if one
    was, and the two check boxes. *)
Record view : Type := mkView {
  v_zone : option string;
  v_hide : bool;
  v_sort : bool
}.

(** The page as it opens: first zone, completed rows shown, sorted. *)
Definition default_view : view := mkView None false true.

(** [selected_zone]: the pick when it is one of the options, the first
    option otherwise. *)
Definition selected (zs : list string) (pick : option string) : string :=
  match pick with
  | Some z => if bool_decide (z ∈ zs) then z else default "" (head zs)
  | None => default "" (head zs)
  end.

(** The rows of a frame under their index labels. *)
Abbreviation rows := (list (nat * list cell)).

Definition indexed (df : DataFrame) : rows :=
  zip (seq 0 (length (records df))) (records df).

(** Lines 123-130: the zone column is added to a frame that is not
    empty, and the rows of the selected zone are kept.  On an empty frame
    the filter looks up a zone column that was not added.  The column is
    carried beside the rows here: the row loop asks it nothing. *)
Definition zone_view (df : DataFrame) (selected_zone : string) : outcome rows :=
  if frame_empty df
  then match frame_col df ZONE with
       | Ret _ => Ret (indexed df)
       | Raise e => Raise e
       | Hang => Hang
       end
  else match frame_col df COL_LOC with
       | Ret locs =>
           match find_cols ZONE (columns df) 0 with
           | _ :: _ :: _ => Raise ValueError
           | _ =>
               Ret (select_rows (indexed df)
                      ((fun loc => String.eqb (extract_zone loc) selected_zone) <$> locs))
           end
       | Raise e => Raise e
       | Hang => Hang
       end.

(** Lines 137-138 on the rows in view. *)
Definition hide_view (cols : list string) (rs : rows) : outcome rows :=
  if bool_decide (rs = []) then Ret rs
  else match frame_text_col (mkFrame cols rs.*2) COL_QTY with
       | Ret col => Ret (select_rows rs (blank_mask col))
       | Raise e => Raise e
       | Hang => Hang
       end.

(** The order of [sort_values]: a missing cell comes last. *)
Definition cell_compare (a b : cell) : comparison :=
  match a, b with
  | Some x, Some y => String.compare x y
  | Some _, None => Lt
  | None, Some _ => Gt
  | None, None => Eq
  end.

Definition key_le (k1 k2 : cell * cell) : bool :=
  match cell_compare k1.1 k2.1 with
  | Lt => true
  | Gt => false
  | Eq => match cell_compare k1.2 k2.2 with Gt => false | _ => true end
  end.

(** Lines 141-142: [sort_values(by=[COL_LOC, COL_NAME], na_position="last")],
    rows of equal keys left in their order. *)
Definition sort_view (cols : list string) (rs : rows) : outcome rows :=
  if bool_decide (rs = []) || negb (bool_decide (COL_LOC ∈ cols)) then Ret rs
  else
    match find_cols COL_LOC cols 0, find_cols COL_NAME cols 0 with
    | [i], [j] =>
        let key (r : nat * list cell) :=
          (default None (r.2 !! i), default None (r.2 !! j)) in
        Ret (sort_by (fun r1 r2 => key_le (key r1) (key r2)) rs)
    | [_], [] => Raise KeyError
    | _, _ => Raise ValueError
    end.

(** The button pressed in the run, with the values of its form. *)
Inductive button : Type :=
| NoButton
| SaveButton (idx : nat) (new_qty : Z) (new_note : string)
| AddButton (new_name new_loc : string) (new_qty_val : Z) (new_note_val : string).

(** The row loop, lines 183-273.  Every row in view is rendered in turn:
    its values are bound, the gate and the opening quantity computed, and
    the handler runs at the row whose button was pressed, unless the gate
    has disabled it; the handler ends the run with [st.rerun()]. *)
Fixpoint render_rows (sheet_name device user now : string) (pressed : button)
         (cols : list string) (rs : rows) : M unit :=
  match rs with
  | [] => ret tt
  | (idx, cells) :: rest =>
      do lc <- lift (row_locals (zip cols cells)) ;
      let can := can_edit (l_owner_existing lc) user in
      do _init_qty <- lift (init_qty (l_qty lc)) ;
      match pressed with
      | SaveButton i new_qty new_note =>
          if bool_decide (i = idx) && can
          then save_handler sheet_name device user now lc new_qty new_note
          else render_rows sheet_name device user now pressed cols rest
      | _ => render_rows sheet_name device user now pressed cols rest
      end
  end.

(** The script from top to bottom. *)
Definition script_run (sheet_name device user now : string) (v : view)
           (pressed : button) : M unit :=
  if String.eqb user "" then ret tt
  else
    do df0 <- read_df sheet_name ;
    let df := if frame_empty df0 then df0 else replace_blank df0 in
    do zs <- lift (zones df) ;
    do view1 <- lift (zone_view df (selected zs (v_zone v))) ;
    do view2 <- lift (if v_hide v then hide_view (columns df) view1 else Ret view1) ;
    do view3 <- lift (if v_sort v then sort_view (columns df) view2 else Ret view2) ;
    do _done <- lift (done_count df) ;
    run render_rows sheet_name device user now pressed (columns df) view3 ;
    match pressed with
    | AddButton new_name new_loc new_qty_val new_note_val =>
        add_handler sheet_name device user now new_name new_loc new_qty_val new_note_val
    | _ => ret tt
    end.

(** A run in which the save button of the row labelled [idx] is pressed,
    the page otherwise as it opens. *)
Definition page_save (sheet_name device user now : string) (idx : nat)
           (new_qty : Z) (new_note : string) : M unit :=
  script_run sheet_name device user now default_view (SaveButton idx new_qty new_note).

(** A run in which the add button is pressed. *)
Definition page_add (sheet_name device user now : string)
           (new_name new_loc : string) (new_qty_val : Z) (new_note_val : string) : M unit :=
  script_run sheet_name device user now default_view
             (AddButton new_name new_loc new_qty_val new_note_val).

(** * Properties *)

(** ** Column letters *)


Lemma col_index_from_cons acc c s :
  col_index_from acc (String c s)
  = col_index_from (acc * 26 + (Z.of_nat (nat_of_ascii c) - 64)) s.
Proof. reflexivity. Qed.

Lemma letter_code r :
  0 <= r < 26 ->
  Z.of_nat (nat_of_ascii (ascii_of_nat (Z.to_nat (r + 65)))) = r + 65.
Proof.
  intros Hr. rewrite nat_ascii_embedding; lia.
Qed.

Lemma letter_is_upper r :
  0 <= r < 26 -> is_upper (ascii_of_nat (Z.to_nat (r + 65))) = true.
Proof.
  intros Hr. unfold is_upper. rewrite nat_ascii_embedding by lia.
  apply andb_true_iff; split; apply Nat.leb_le; lia.
Qed.

Lemma weight_cons c s : weight (String c s) = 26 * weight s.
Proof.
  unfold weight.
  replace (Z.of_nat (String.length (String c s)))
    with (Z.succ (Z.of_nat (String.length s))) by (simpl; lia).
  rewrite Z.pow_succ_r by lia. done.
Qed.

Lemma col_index_from_weight acc s :
  col_index_from acc s = acc * weight s + col_index s.
Proof.
  revert acc. induction s as [|c s IH]; intros acc.
  - unfold col_index, col_index_from, weight. simpl. lia.
  - unfold col_index. rewrite (col_index_from_cons acc), (col_index_from_cons 0).
    rewrite IH, (IH (0 * 26 + _)), weight_cons. lia.
Qed.

Lemma col_letter_loop_spec fuel n s :
  0 <= n -> (Z.to_nat n <= fuel)%nat -> label_ok s ->
  exists t, col_letter_loop fuel n s = Some t /\ label_ok t /\
            col_index t = n * weight s + col_index s /\
            (n <> 0 \/ s <> "" -> t <> "") /\ (n = 0 -> t = s).
Proof.
  revert n s. induction fuel as [|fuel IH]; intros n s Hn Hf Hs.
  - assert (n = 0) as -> by lia. simpl. exists s. repeat split; auto; try lia.
    intros [?|?]; done.
  - destruct (Z.eqb_spec n 0) as [->|Hne].
    + simpl. exists s. repeat split; auto; try lia. intros [?|?]; done.
    + cbn [col_letter_loop]. destruct (Z.eqb_spec n 0) as [?|_]; [done|].
      set (q := (n - 1) `div` 26). set (r := (n - 1) `mod` 26).
      assert (0 <= r < 26) as Hr by (apply Z.mod_pos_bound; lia).
      assert (0 <= q) as Hq by (apply Z.div_pos; lia).
      assert (n - 1 = 26 * q + r) as Hdiv by (apply Z.div_mod; lia).
      destruct (IH q (String (ascii_of_nat (Z.to_nat (r + 65))) s)) as (t & Ht & Hok & Hidx & Hne' & _).
      * lia.
      * lia.
      * constructor; [by apply letter_is_upper | done].
      * exists t. split; [done|]. split; [done|]. split.
        -- rewrite Hidx. unfold col_index at 1.
           rewrite col_index_from_cons, col_index_from_weight.
           rewrite letter_code by done.
           rewrite weight_cons. nia.
        -- split; [|lia]. intros _. apply Hne'. by right.
Qed.

Lemma col_letter_total n :
  0 <= n ->
  exists t, _col_letter n = Some t /\ label_ok t /\ col_index t = n /\
            (n <> 0 -> t <> "").
Proof.
  intros Hn. unfold _col_letter.
  destruct (col_letter_loop_spec (Z.to_nat n) n "" Hn) as (t & Ht & Hok & Hidx & Hne & _);
    [lia | constructor |].
  exists t. repeat split; auto.
  rewrite Hidx. unfold weight, col_index, col_index_from. simpl. lia.
Qed.


(** A negative argument never reaches 0: the loop does not return. *)
Lemma col_letter_loop_negative fuel n s :
  n < 0 -> col_letter_loop fuel n s = None.
Proof.
  revert n s. induction fuel as [|fuel IH]; intros n s Hn; simpl;
    destruct (Z.eqb_spec n 0); try lia; [done|].
  apply IH. apply Z.div_lt_upper_bound; lia.
Qed.

(** *** Labels and numbers correspond one to one *)



Lemma append_cons d t s : String d t +:+ s = String d (t +:+ s).
Proof. reflexivity. Qed.






(** ** Grids *)

Lemma pad_length n r : length (pad n r) = Nat.max n (length r).
Proof. unfold pad. rewrite length_app, length_replicate. lia. Qed.

Lemma pad_ge n r : (n <= length r)%nat -> pad n r = r.
Proof.
  intros H. unfold pad. replace (n - length r)%nat with 0%nat by lia.
  simpl. by rewrite app_nil_r.
Qed.

Lemma nth_replicate_default {A} (n : nat) (x : A) i :
  nth i (replicate n x) x = x.
Proof. revert i. induction n as [|n IH]; intros [|i]; simpl; auto. Qed.

Lemma nth_pad n r j : nth j (pad n r) "" = nth j r "".
Proof.
  unfold pad. destruct (decide (j < length r)%nat) as [Hlt|Hge].
  - by rewrite app_nth1.
  - rewrite app_nth2 by lia. rewrite (nth_overflow r) by lia.
    apply nth_replicate_default.
Qed.

Lemma row_width_cons r g : row_width (r :: g) = Nat.max (length r) (row_width g).
Proof. reflexivity. Qed.

Lemma row_width_nil : row_width [] = 0%nat.
Proof. reflexivity. Qed.

Arguments row_width : simpl never.

Lemma row_width_elem g r : r ∈ g -> (length r <= row_width g)%nat.
Proof.
  intros H. apply max_list_elem_of_le. apply list_elem_of_fmap. eauto.
Qed.

Lemma row_width_tail g : (row_width (tail g) <= row_width g)%nat.
Proof. destruct g as [|r g]; [done|]. rewrite row_width_cons. simpl. lia. Qed.

Lemma row_width_app g r :
  row_width (g ++ [r]) = Nat.max (row_width g) (length r).
Proof.
  induction g as [|r' g IH]; simpl.
  - rewrite row_width_cons, !row_width_nil. lia.
  - rewrite !row_width_cons, IH. lia.
Qed.

Lemma row_width_insert g i r :
  (row_width (<[i:=r]> g) <= Nat.max (length r) (row_width g))%nat.
Proof.
  revert i. induction g as [|x g IH]; intros [|i]; simpl;
    rewrite ?row_width_cons; try lia.
  specialize (IH i). lia.
Qed.

Lemma header_of_cons r g : header_of (r :: g) = pad (row_width (r :: g)) r.
Proof. reflexivity. Qed.

Lemma header_of_length g : g <> [] -> length (header_of g) = row_width g.
Proof.
  destruct g as [|r g]; [done|]. intros _.
  rewrite header_of_cons, pad_length, row_width_cons. lia.
Qed.

Lemma header_of_nil : header_of [] = [].
Proof. reflexivity. Qed.

Lemma norm_grid_tail rec g : tail (norm_grid rec g) = tail g.
Proof. unfold norm_grid. by destruct (missing_cols rec (header_of g)). Qed.

Lemma norm_grid_length rec g : g <> [] -> length (norm_grid rec g) = length g.
Proof.
  intros Hg. unfold norm_grid. destruct (missing_cols rec (header_of g)); [done|].
  destruct g; [done|]. reflexivity.
Qed.

Lemma norm_grid_nil rec g :
  norm_grid rec g = [] -> g = [] /\ norm_headers rec g = [].
Proof.
  unfold norm_grid, norm_headers.
  destruct (missing_cols rec (header_of g)) eqn:E; [|done].
  intros ->. by rewrite header_of_nil.
Qed.

Lemma norm_grid_width rec g :
  norm_grid rec g <> [] ->
  row_width (norm_grid rec g) = length (norm_headers rec g).
Proof.
  unfold norm_grid, norm_headers.
  destruct (missing_cols rec (header_of g)) as [|m ms] eqn:E; intros Hne.
  - rewrite app_nil_r. by rewrite header_of_length.
  - rewrite row_width_cons.
    assert (row_width (tail g) <= length (header_of g))%nat.
    { destruct g as [|r g]; [simpl; rewrite row_width_nil; lia|].
      rewrite header_of_length by done. apply row_width_tail. }
    rewrite length_app in *. lia.
Qed.

Lemma norm_grid_head rec g :
  norm_grid rec g <> [] -> header_of (norm_grid rec g) = norm_headers rec g.
Proof.
  intros Hne. pose proof (norm_grid_width rec g Hne) as Hw.
  revert Hne Hw. unfold norm_grid, norm_headers.
  destruct (missing_cols rec (header_of g)) as [|m ms] eqn:E; intros Hne Hw.
  - by rewrite app_nil_r.
  - rewrite header_of_cons, Hw. by apply pad_ge.
Qed.

Lemma get_all_values_norm rec g :
  norm_grid rec g <> [] ->
  get_all_values (norm_grid rec g)
  = norm_headers rec g :: (pad (length (norm_headers rec g)) <$> tail g).
Proof.
  intros Hne.
  pose proof (norm_grid_width rec g Hne) as Hw.
  pose proof (norm_grid_head rec g Hne) as Hh.
  pose proof (norm_grid_tail rec g) as Ht.
  destruct (norm_grid rec g) as [|r g'] eqn:E; [done|].
  unfold get_all_values. rewrite Hw. simpl in Ht. subst g'.
  rewrite fmap_cons. f_equal.
  rewrite header_of_cons, Hw in Hh. done.
Qed.

(** ** Running the store calls *)

Lemma ws_grid_set_sheet name g w : ws_grid name (set_sheet name g w) = g.
Proof. unfold ws_grid, set_sheet. simpl. by rewrite lookup_insert_eq. Qed.

Lemma set_sheet_set_sheet name g g' w :
  set_sheet name g (set_sheet name g' w) = set_sheet name g w.
Proof. unfold set_sheet. simpl. by rewrite insert_insert_eq. Qed.

Lemma set_sheet_id name g w :
  sheets w !! name = Some g -> set_sheet name g w = w.
Proof.
  intros H. unfold set_sheet. rewrite insert_id by done. by destruct w.
Qed.

Lemma ws_apply_run name f w :
  ws_apply name f w = (Ret tt, set_sheet name (f (ws_grid name w)) w).
Proof. reflexivity. Qed.

Lemma ws_append_row_run name row w :
  ws_append_row name row w = (Ret tt, set_sheet name (ws_grid name w ++ [row]) w).
Proof. reflexivity. Qed.

Lemma ensure_none_run name w :
  ensure_worksheet name None w = (Ret tt, set_sheet name (ws_grid name w) w).
Proof.
  unfold ensure_worksheet, ws_grid.
  destruct (sheets w !! name) as [g|] eqn:E; simpl.
  - unfold ret. by rewrite set_sheet_id.
  - reflexivity.
Qed.

Lemma normalize_run name rec w :
  is_Some (sheets w !! name) ->
  _normalize_headers name rec w
  = (Ret (norm_headers rec (ws_grid name w)),
     set_sheet name (norm_grid rec (ws_grid name w)) w).
Proof.
  intros [g Hg]. unfold _normalize_headers, bind, ws_get_all_values.
  assert (ws_grid name w = g) as Hgrid by (unfold ws_grid; by rewrite Hg).
  rewrite Hgrid. unfold norm_grid, norm_headers, missing_cols, header_of.
  set (headers := match get_all_values g with h :: _ => h | [] => [] end).
  destruct (filter (fun k => k ∉ headers) (dict_keys rec)) as [|m ms] eqn:E.
  - unfold ret. rewrite app_nil_r. by rewrite set_sheet_id.
  - rewrite !ws_apply_run, ws_grid_set_sheet, set_sheet_set_sheet.
    rewrite Hgrid. unfold ret, grid_insert_first, grid_delete_first.
    reflexivity.
Qed.

Lemma as_read_fmap (r : list string) :
  blank_to_na <$> (Some <$> r) = as_read r.
Proof. unfold as_read. by rewrite <- list_fmap_compose. Qed.

Lemma read_df_body_norm name rec g sh :
  read_df_body name (<[name := norm_grid rec g]> sh) = frame_after rec g.
Proof.
  unfold read_df_body, frame_after. rewrite lookup_insert_eq.
  destruct (decide (norm_grid rec g = [])) as [E|Hne].
  - destruct (norm_grid_nil _ _ E) as [-> ->]. by rewrite E.
  - rewrite get_all_values_norm by done.
    unfold replace_blank, frame_of. simpl. f_equal.
    rewrite <- list_fmap_compose. rewrite <- list_fmap_compose.
    apply list_fmap_ext. intros i r _. simpl. apply as_read_fmap.
Qed.

Lemma read_df_cold name w :
  cache w !! name = None ->
  read_df name w
  = (Ret (read_df_body name (sheets w)),
     mkWorld (sheets w) (<[name := read_df_body name (sheets w)]> (cache w))).
Proof. intros H. unfold read_df. by rewrite H. Qed.

(** ** The key comparison *)

Lemma find_cols_bounds k cols i j :
  j ∈ find_cols k cols i ->
  (i <= j)%nat /\ cols !! (j - i)%nat = Some k.
Proof.
  revert i. induction cols as [|c cs IH]; intros i; simpl; [by intros ?%elem_of_nil|].
  destruct (String.eqb_spec c k) as [->|Hne].
  - intros [->|Hin]%elem_of_cons.
    + split; [lia|]. by rewrite Nat.sub_diag.
    + destruct (IH _ Hin) as [Hle Hl]. split; [lia|].
      replace (j - i)%nat with (S (j - S i)) by lia. done.
  - intros Hin. destruct (IH _ Hin) as [Hle Hl]. split; [lia|].
    replace (j - i)%nat with (S (j - S i)) by lia. done.
Qed.

Lemma find_cols_single k cols j :
  find_cols k cols 0 = [j] -> cols !! j = Some k.
Proof.
  intros H. destruct (find_cols_bounds k cols 0 j) as [_ Hl].
  - rewrite H. by left.
  - by rewrite Nat.sub_0_r in Hl.
Qed.

Lemma labels_once_cons k ks hdr :
  labels_once (k :: ks) hdr = true ->
  (exists j, find_cols k hdr 0 = [j]) /\ labels_once ks hdr = true.
Proof.
  unfold labels_once. simpl. intros [H1 H2]%andb_true_iff. split; [|done].
  apply bool_decide_eq_true in H1.
  destruct (find_cols k hdr 0) as [|j [|j' l]]; simpl in H1; try lia. eauto.
Qed.

(** What the comparison sees in column [j] of a row read afresh. *)
Lemma compared_text n (r : list string) j t :
  match match match default None (as_read (pad n r) !! j) with
              | Some s => Some s | None => Some "<NA>" end with
        | Some s => Some s | None => Some "" end with
  | Some s => String.eqb s t | None => false end
  = String.eqb (stored_text (nth j r "")) t.
Proof.
  rewrite <- (nth_pad n r j). unfold as_read. rewrite list_lookup_fmap.
  destruct (pad n r !! j) as [c|] eqn:E; simpl.
  - rewrite (nth_lookup_Some _ _ _ _ E). unfold stored_text.
    by destruct (String.eqb c "").
  - rewrite nth_lookup, E. reflexivity.
Qed.

Lemma column_compare n (rows : grid) j t :
  eq_text (fillna "" (astype_str
     ((fun r : list cell => default None (r !! j))
        <$> ((fun r => as_read (pad n r)) <$> rows)))) t
  = (fun r => String.eqb (stored_text (nth j r "")) t) <$> rows.
Proof.
  unfold eq_text, fillna, astype_str. rewrite <- !list_fmap_compose.
  apply list_fmap_ext. intros i r _. simpl. apply compared_text.
Qed.

Lemma zip_with_andb_fmap {A} (f g : A -> bool) (l : list A) (mask : list bool) :
  zip_with andb (zip_with andb mask (f <$> l)) (g <$> l)
  = zip_with andb mask ((fun x => f x && g x) <$> l).
Proof.
  revert mask. induction l as [|x l IH]; intros [|b mask]; simpl; try done.
  by rewrite IH, andb_assoc.
Qed.

Lemma zip_with_andb_true {A} (l : list A) (mask : list bool) :
  (length mask <= length l)%nat ->
  zip_with andb mask ((fun _ => true) <$> l) = mask.
Proof.
  revert mask. induction l as [|x l IH]; intros [|b mask]; simpl; try done; try lia.
  intros H. rewrite IH by lia. by rewrite andb_true_r.
Qed.

Lemma key_mask_run hdr n (rows : grid) key_cols rec mask :
  labels_once key_cols hdr = true ->
  (length mask <= length rows)%nat ->
  key_mask (mkFrame hdr ((fun r => as_read (pad n r)) <$> rows)) key_cols rec mask
  = Ret (zip_with andb mask (row_matches hdr key_cols rec <$> rows)).
Proof.
  revert mask. induction key_cols as [|k ks IH]; intros mask Hl Hlen.
  - simpl. f_equal. unfold row_matches. simpl. by rewrite zip_with_andb_true.
  - destruct (labels_once_cons _ _ _ Hl) as [[j Hj] Hl'].
    simpl. unfold frame_col. simpl. rewrite Hj.
    rewrite column_compare, IH; [|done|].
    + f_equal. rewrite zip_with_andb_fmap. f_equal.
      apply list_fmap_ext. intros i r _. unfold row_matches. simpl. by rewrite Hj.
    + rewrite length_zip_with, length_fmap. lia.
Qed.

Lemma key_mask_all hdr n (rows : grid) key_cols rec :
  labels_once key_cols hdr = true ->
  key_mask (mkFrame hdr ((fun r => as_read (pad n r)) <$> rows)) key_cols rec
           (replicate (length rows) true)
  = Ret (row_matches hdr key_cols rec <$> rows).
Proof.
  intros Hl. rewrite key_mask_run; [|done|by rewrite length_replicate]. f_equal.
  rewrite zip_with_replicate_l by (by rewrite length_fmap).
  rewrite <- list_fmap_compose. apply list_fmap_ext. by intros.
Qed.

Lemma first_true_Some mask i :
  first_true mask = Some i <->
  mask !! i = Some true /\ (forall j, (j < i)%nat -> mask !! j = Some false).
Proof.
  revert i. induction mask as [|b mask IH]; intros i; simpl.
  - split; [done|]. by intros [? _].
  - destruct b.
    + split.
      * intros [= <-]. split; [done|]. intros; lia.
      * intros [Hi Hlt]. destruct i as [|i]; [done|].
        specialize (Hlt 0%nat ltac:(lia)). done.
    + split.
      * intros H. destruct i as [|i].
        { destruct (first_true mask); done. }
        assert (first_true mask = Some i) as E.
        { destruct (first_true mask); simpl in H; congruence. }
        apply IH in E as [Hi Hlt]. split; [done|].
        intros [|j] Hj; [done|]. apply Hlt. lia.
      * intros [Hi Hlt]. destruct i as [|i]; [done|].
        assert (first_true mask = Some i) as ->; [|done].
        apply IH. split; [done|]. intros j Hj. apply (Hlt (S j)). lia.
Qed.

Lemma first_true_None mask :
  first_true mask = None <-> (forall j, mask !! j <> Some true).
Proof.
  induction mask as [|b mask IH]; simpl.
  - split; [|done]. by intros _ [|j].
  - destruct b.
    + split; [done|]. intros H. by specialize (H 0%nat).
    + split.
      * intros H [|j]; [done|]. apply IH.
        destruct (first_true mask); done.
      * intros H. assert (first_true mask = None) as ->; [|done].
        apply IH. intros j. apply (H (S j)).
Qed.

Lemma first_true_lt mask i : first_true mask = Some i -> (i < length mask)%nat.
Proof. intros [H _]%first_true_Some. by apply lookup_lt_Some in H. Qed.

Lemma upsert_target_lt hdr key_cols rec rows i :
  upsert_target hdr key_cols rec rows = Some i -> (i < length rows)%nat.
Proof.
  unfold upsert_target. case_bool_decide; [done|].
  intros Hf%first_true_lt. by rewrite length_fmap in Hf.
Qed.

(** ** Overwriting a row through its A1 range *)

Lemma col_index_A : col_index "A" = 1.
Proof. reflexivity. Qed.

Lemma write_cells_whole (vals row : list string) :
  (length row <= length vals)%nat -> write_cells 0 vals row = vals.
Proof.
  intros H. unfold write_cells. simpl.
  rewrite drop_ge by lia. by rewrite app_nil_r.
Qed.

Lemma grid_update_row (g : grid) (i : nat) (label : string) (vals : list string) :
  col_index label = Z.of_nat (length vals) ->
  (S i < length g)%nat ->
  (forall r, r ∈ g -> (length r <= length vals)%nat) ->
  grid_update (mkRange "A" (Z.of_nat i + 2) label (Z.of_nat i + 2)) [vals] g
  = Ret (<[S i := vals]> g).
Proof.
  intros Hlabel Hi Hrows. unfold grid_update, range_height, range_width. simpl.
  rewrite Hlabel, col_index_A.
  rewrite !bool_decide_eq_true_2 by lia. simpl. f_equal.
  replace (Z.to_nat (Z.of_nat i + 2 - 1)) with (S i) by lia.
  replace (S (S i) - length g)%nat with 0%nat by lia.
  simpl. rewrite app_nil_r.
  destruct (g !! S i) as [row|] eqn:E.
  - simpl. rewrite write_cells_whole; [done|].
    apply Hrows. by eapply list_elem_of_lookup_2.
  - apply lookup_ge_None in E. lia.
Qed.

Lemma ws_update_run name rg values w g :
  grid_update rg values (ws_grid name w) = Ret g ->
  ws_update name rg values w = (Ret tt, set_sheet name g w).
Proof. intros H. unfold ws_update. by rewrite H. Qed.

Lemma project_length rec hdr : length (project rec hdr) = length hdr.
Proof. unfold project. by rewrite length_fmap. Qed.

Lemma norm_grid_rows rec g r :
  r ∈ norm_grid rec g -> (length r <= length (norm_headers rec g))%nat.
Proof.
  intros Hin. assert (norm_grid rec g <> []) as Hne by (intros E; rewrite E in Hin; by apply elem_of_nil in Hin).
  rewrite <- norm_grid_width by done. by apply row_width_elem.
Qed.

Lemma upsert_range_run (i : nat) hdr :
  exists label,
    upsert_range (Z.of_nat i + 2) hdr
    = Ret (mkRange "A" (Z.of_nat i + 2) label (Z.of_nat i + 2))
    /\ label_ok label /\ col_index label = Z.of_nat (length hdr).
Proof.
  destruct (col_letter_total (Z.of_nat (length hdr))) as (label & Hl & Hok & Hidx & _); [lia|].
  exists label. unfold upsert_range. rewrite Hl. done.
Qed.

Lemma bind_run {A B} (m : M A) (k : A -> M B) w a w' :
  m w = (Ret a, w') -> bind m k w = k a w'.
Proof. intros H. unfold bind. by rewrite H. Qed.

Lemma sheets_set_sheet name g w :
  sheets (set_sheet name g w) = <[name := g]> (sheets w).
Proof. reflexivity. Qed.

Lemma cache_set_sheet name g w : cache (set_sheet name g w) = cache w.
Proof. reflexivity. Qed.

(** The writers all start alike: the sheet is made sure of, then its
    header is normalised. *)
Ltac run_prepare :=
  erewrite bind_run by apply ensure_none_run;
  erewrite bind_run;
    [|apply normalize_run; rewrite sheets_set_sheet, lookup_insert_eq; eauto];
  rewrite ws_grid_set_sheet, set_sheet_set_sheet.

Lemma append_after_read name row g w df :
  ws_append_row name row (mkWorld (<[name := g]> (sheets w)) (<[name := df]> (cache w)))
  = (Ret tt, mkWorld (<[name := g ++ [row]]> (sheets w)) (<[name := df]> (cache w))).
Proof.
  rewrite ws_append_row_run. unfold ws_grid, set_sheet. simpl.
  by rewrite lookup_insert_eq, insert_insert_eq.
Qed.

(** The whole of [upsert_row], on a read that misses the cache. *)
Lemma upsert_row_run name key_cols rec w :
  cache w !! name = None ->
  labels_once key_cols (norm_headers rec (ws_grid name w)) = true ->
  upsert_row name key_cols rec w
  = (Ret tt,
     mkWorld (<[name := upsert_result key_cols rec (ws_grid name w)]> (sheets w))
             (<[name := frame_after rec (ws_grid name w)]> (cache w))).
Proof.
  intros Hcold Hkeys. set (g0 := ws_grid name w) in *.
  set (hdr := norm_headers rec g0) in *.
  unfold upsert_row.
  run_prepare. fold g0. fold hdr.
  erewrite bind_run; [|by apply read_df_cold].
  rewrite sheets_set_sheet, cache_set_sheet, read_df_body_norm.
  unfold upsert_result. fold g0. fold hdr. unfold upsert_target.
  unfold frame_empty, frame_after. fold g0. fold hdr. cbn [columns records].
  destruct (decide (hdr = [])) as [Hh|Hh].
  - rewrite bool_decide_eq_true_2 by done. cbn [orb].
    apply append_after_read.
  - rewrite (bool_decide_eq_false_2 (hdr = [])) by done. cbn [orb].
    destruct (tail g0) as [|r rows] eqn:Et.
    + cbn [fmap list_fmap]. rewrite bool_decide_eq_true_2 by done.
      cbn [first_true]. apply append_after_read.
    + rewrite bool_decide_eq_false_2 by done.
      rewrite length_fmap.
      erewrite bind_run; [|unfold lift; by rewrite key_mask_all].
      destruct (first_true (row_matches hdr key_cols rec <$> r :: rows)) as [i|] eqn:Ef.
      * destruct (upsert_range_run i hdr) as (label & Hr & _ & Hidx).
        erewrite bind_run; [|unfold lift; by rewrite Hr].
        erewrite ws_update_run.
        -- unfold set_sheet. simpl. rewrite insert_insert_eq. done.
        -- unfold ws_grid. simpl. rewrite lookup_insert_eq. simpl.
           apply grid_update_row.
           ++ by rewrite project_length.
           ++ apply first_true_lt in Ef. rewrite length_fmap in Ef.
              assert (length (tail (norm_grid rec g0)) = length (r :: rows)) as Hlen
                by (by rewrite norm_grid_tail, Et).
              rewrite length_tl in Hlen. simpl in *. lia.
           ++ intros r' Hr'. rewrite project_length. by apply norm_grid_rows.
      * apply append_after_read.
Qed.

(** ** Zone derivation and the ownership gate *)

Lemma next_char_ascii c s :
  byte c < 128 -> next_char (String c s) = Some (byte c, s).
Proof. intros H. unfold next_char. by rewrite (proj2 (Z.ltb_lt _ _) H). Qed.

Lemma next_char_length s c rest :
  next_char s = Some (c, rest) -> (String.length rest < String.length s)%nat.
Proof.
  destruct s as [|b0 s1]; [done|]. unfold next_char. intros H.
  repeat (case_match; try done); simplify_eq; simpl; lia.
Qed.

Lemma lstrip_loop_enough n m s :
  (String.length s <= n)%nat -> (String.length s <= m)%nat ->
  lstrip_loop n s = lstrip_loop m s.
Proof.
  revert m s. induction n as [|n IH]; intros m s Hn Hm.
  - destruct s; [|simpl in Hn; lia]. by destruct m.
  - destruct m as [|m].
    + destruct s; [done|simpl in Hm; lia].
    + simpl. destruct (next_char s) as [[c rest]|] eqn:E; [|done].
      destruct (isspace c); [|done].
      apply next_char_length in E. apply IH; lia.
Qed.

(** One turn of [lstrip]. *)
Lemma lstrip_step s :
  lstrip s = match next_char s with
             | Some (c, rest) => if isspace c then lstrip rest else s
             | None => s
             end.
Proof.
  unfold lstrip. destruct s as [|b s]; [done|].
  cbn [String.length lstrip_loop].
  destruct (next_char (String b s)) as [[c rest]|] eqn:E; [|done].
  destruct (isspace c); [|done].
  apply next_char_length in E. simpl in E. apply lstrip_loop_enough; lia.
Qed.

Lemma isspace_spec c :
  isspace c = true <->
  9 <= c <= 13 \/ 28 <= c <= 32 \/ c = 133 \/ c = 160 \/ c = 5760
  \/ 8192 <= c <= 8202 \/ c = 8232 \/ c = 8233 \/ c = 8239 \/ c = 8287
  \/ c = 12288.
Proof.
  unfold isspace.
  rewrite !orb_true_iff, !andb_true_iff, !Z.leb_le, !Z.eqb_eq. tauto.
Qed.







Lemma lstrip_keeps c s :
  byte c < 128 -> isspace (byte c) = false -> lstrip (String c s) = String c s.
Proof. intros H1 H2. rewrite lstrip_step, next_char_ascii by done. by rewrite H2. Qed.

Lemma rstrip_keeps c s :
  byte c < 128 -> isspace (byte c) = false ->
  rstrip (String c s) = String c (rstrip s).
Proof. intros H1 H2. cbn [rstrip]. by rewrite lstrip_keeps. Qed.

Lemma strip_keeps c s :
  byte c < 128 -> isspace (byte c) = false ->
  strip (String c s) = String c (rstrip s).
Proof. intros H1 H2. unfold strip. rewrite lstrip_keeps by done. by apply rstrip_keeps. Qed.





(** ** The column letter of the overwritten range *)


(** ** Header normalisation *)

Lemma normalize_any name rec w :
  exists w',
    _normalize_headers name rec w = (Ret (norm_headers rec (ws_grid name w)), w') /\
    ws_grid name w' = norm_grid rec (ws_grid name w) /\
    cache w' = cache w /\
    (forall other, other <> name -> sheets w' !! other = sheets w !! other).
Proof.
  unfold _normalize_headers, bind, ws_get_all_values.
  unfold norm_grid, norm_headers, missing_cols, header_of.
  set (g := ws_grid name w).
  set (headers := match get_all_values g with h :: _ => h | [] => [] end).
  destruct (filter (fun k => k ∉ headers) (dict_keys rec)) as [|m ms] eqn:E.
  - exists w. rewrite app_nil_r. done.
  - eexists. rewrite !ws_apply_run, ws_grid_set_sheet, set_sheet_set_sheet.
    split; [reflexivity|]. rewrite ws_grid_set_sheet. repeat split.
    intros other Hne. rewrite sheets_set_sheet. by rewrite lookup_insert_ne.
Qed.

Lemma read_df_body_columns name sh :
  columns (read_df_body name sh) = header_of (default [] (sh !! name)).
Proof.
  unfold read_df_body, header_of. destruct (sh !! name) as [g|]; simpl; [|done].
  by destruct (get_all_values g).
Qed.

Lemma missing_cols_spec rec headers c :
  c ∈ missing_cols rec headers <-> c ∈ dict_keys rec /\ c ∉ headers.
Proof. unfold missing_cols. rewrite list_elem_of_filter. tauto. Qed.

Lemma norm_headers_covers rec g c :
  c ∈ header_of g \/ c ∈ dict_keys rec -> c ∈ norm_headers rec g.
Proof.
  unfold norm_headers. rewrite elem_of_app, missing_cols_spec.
  intros [H|H]; [by left|].
  destruct (decide (c ∈ header_of g)); [by left | by right].
Qed.

Lemma header_of_norm_grid rec g :
  header_of (norm_grid rec g) = norm_headers rec g.
Proof.
  destruct (decide (norm_grid rec g = [])) as [E|Hne].
  - destruct (norm_grid_nil _ _ E) as [_ ->]. by rewrite E.
  - by apply norm_grid_head.
Qed.

(** ** Upsert *)

Lemma dict_get_absent rec h d : h ∉ dict_keys rec -> dict_get rec h d = d.
Proof.
  induction rec as [|[k v] rec IH]; simpl; [done|].
  intros Hn. apply not_elem_of_cons in Hn as [Hne Hn].
  destruct (String.eqb_spec k h) as [->|_]; [done|]. by apply IH.
Qed.

Lemma project_lookup rec hdr j h :
  hdr !! j = Some h -> project rec hdr !! j = Some (str (dict_get rec h (VStr ""))).
Proof. intros H. unfold project. by rewrite list_lookup_fmap, H. Qed.

(** The first stored row whose key columns all compare equal is the one
    an upsert settles on. *)
Lemma upsert_target_first hdr key_cols rec rows i :
  upsert_target hdr key_cols rec rows = Some i <->
  hdr <> [] /\
  (exists row, rows !! i = Some row /\ row_matches hdr key_cols rec row = true) /\
  (forall j row, (j < i)%nat -> rows !! j = Some row ->
                 row_matches hdr key_cols rec row = false).
Proof.
  unfold upsert_target. case_bool_decide as Hh.
  - split; [done|]. by intros [? _].
  - rewrite first_true_Some. split.
    + intros [Hi Hlt]. split; [done|]. split.
      * rewrite list_lookup_fmap in Hi.
        destruct (rows !! i) as [row|]; [|done]. exists row. split; [done|].
        simpl in Hi. congruence.
      * intros j row Hj Hrow. specialize (Hlt j Hj).
        rewrite list_lookup_fmap, Hrow in Hlt. simpl in Hlt. congruence.
    + intros (_ & (row & Hrow & Hm) & Hlt). split.
      * by rewrite list_lookup_fmap, Hrow, <- Hm.
      * intros j Hj. rewrite list_lookup_fmap.
        destruct (rows !! j) as [row'|] eqn:E.
        -- simpl. f_equal. by eapply Hlt.
        -- apply lookup_ge_None in E. apply lookup_lt_Some in Hrow. lia.
Qed.

(** ** Append, then read *)

Lemma append_row_run name rec w :
  append_row name rec w
  = (Ret tt,
     set_sheet name (norm_grid rec (ws_grid name w)
                     ++ [project rec (norm_headers rec (ws_grid name w))]) w).
Proof.
  unfold append_row.
  run_prepare.
  rewrite ws_append_row_run, ws_grid_set_sheet, set_sheet_set_sheet. done.
Qed.

Lemma read_df_body_rows name (g : grid) sh :
  g <> [] ->
  read_df_body name (<[name := g]> sh)
  = mkFrame (header_of g) ((fun r => as_read (pad (row_width g) r)) <$> tail g).
Proof.
  intros Hg. unfold read_df_body, header_of. rewrite lookup_insert_eq.
  destruct g as [|r g]; [done|]. unfold get_all_values. rewrite fmap_cons.
  unfold replace_blank, frame_of. simpl. f_equal.
  rewrite <- !list_fmap_compose. apply list_fmap_ext. intros i x _. simpl.
  apply as_read_fmap.
Qed.

Lemma as_read_project rec hdr :
  as_read (project rec hdr)
  = (fun h => blank_to_na (Some (str (dict_get rec h (VStr ""))))) <$> hdr.
Proof. unfold as_read, project. by rewrite <- list_fmap_compose. Qed.

Lemma norm_grid_nonempty rec (g : grid) :
  g <> [] \/ rec <> [] -> norm_grid rec g <> [].
Proof.
  intros H E. destruct (norm_grid_nil _ _ E) as [-> Hh].
  destruct H as [H|H]; [done|].
  unfold norm_headers in Hh. rewrite header_of_nil in Hh. simpl in Hh.
  destruct rec as [|[k v] rec]; [done|].
  unfold missing_cols in Hh. simpl in Hh.
  rewrite filter_cons_True in Hh by apply not_elem_of_nil. done.
Qed.

Lemma appended_grid_read rec (g : grid) :
  norm_grid rec g <> [] ->
  let hdr := norm_headers rec g in
  let g' := norm_grid rec g ++ [project rec hdr] in
  row_width g' = length hdr /\ header_of g' = hdr /\
  tail g' = tail g ++ [project rec hdr].
Proof.
  intros Hne hdr g'.
  pose proof (norm_grid_width rec g Hne) as Hw.
  pose proof (norm_grid_head rec g Hne) as Hh.
  pose proof (norm_grid_tail rec g) as Ht.
  assert (row_width g' = length hdr) as Hw'.
  { unfold g'. rewrite row_width_app, Hw, project_length. fold hdr. lia. }
  split; [done|]. unfold g' in *. fold hdr in Hw, Hh.
  destruct (norm_grid rec g) as [|r rest]; [done|]. simpl in *.
  split; [|by rewrite Ht].
  rewrite header_of_cons in Hh. rewrite header_of_cons.
  change ((r :: rest) ++ [project rec hdr]) with (r :: rest ++ [project rec hdr]) in Hw'.
  by rewrite Hw', <- Hw.
Qed.

(** ** Upsert twice *)

Lemma filter_none {A} (P : A -> Prop) `{forall x, Decision (P x)} (l : list A) :
  (forall x, x ∈ l -> ~ P x) -> filter P l = [].
Proof.
  induction l as [|x l IH]; intros Hl; [done|].
  rewrite filter_cons_False by (apply Hl; by left).
  apply IH. intros y Hy. apply Hl. by right.
Qed.

Lemma missing_cols_norm rec g : missing_cols rec (norm_headers rec g) = [].
Proof.
  unfold missing_cols. apply filter_none. intros k Hk Hn. apply Hn.
  apply norm_headers_covers. by right.
Qed.

(** A grid whose header row reads as [hdr], with every key of the record
    in it, is left as it is by the normalisation. *)
Lemma norm_settled rec (g : grid) hdr :
  header_of g = hdr -> missing_cols rec hdr = [] ->
  norm_headers rec g = hdr /\ norm_grid rec g = g.
Proof.
  intros Hh Hm. unfold norm_headers, norm_grid. rewrite Hh, Hm.
  by rewrite app_nil_r.
Qed.

Lemma row_width_insert_eq (g : grid) i r :
  (i < length g)%nat -> (forall x, x ∈ g -> (length x <= length r)%nat) ->
  row_width (<[i:=r]> g) = length r.
Proof.
  intros Hi Hrows. apply Nat.le_antisymm.
  - etrans; [apply row_width_insert|].
    assert (row_width g <= length r)%nat; [|lia].
    clear Hi. induction g as [|x g IH]; [rewrite row_width_nil; lia|].
    rewrite row_width_cons. apply Nat.max_lub.
    + apply Hrows. by left.
    + apply IH. intros y Hy. apply Hrows. by right.
  - apply row_width_elem. by apply list_elem_of_insert.
Qed.

Lemma overwritten_grid_read rec (g : grid) i :
  norm_grid rec g <> [] -> (S i < length (norm_grid rec g))%nat ->
  let hdr := norm_headers rec g in
  let g' := <[S i := project rec hdr]> (norm_grid rec g) in
  header_of g' = hdr /\ tail g' = <[i := project rec hdr]> (tail g).
Proof.
  intros Hne Hi hdr g'.
  pose proof (norm_grid_width rec g Hne) as Hw.
  pose proof (norm_grid_head rec g Hne) as Hh.
  pose proof (norm_grid_tail rec g) as Ht.
  assert (row_width g' = length hdr) as Hw'.
  { unfold g'. rewrite row_width_insert_eq; [apply project_length|done|].
    intros x Hx. rewrite project_length. by apply norm_grid_rows. }
  unfold g' in *. fold hdr in Hw, Hh.
  destruct (norm_grid rec g) as [|r rest]; [done|]. simpl in *.
  split; [|by rewrite Ht].
  rewrite header_of_cons in Hh. rewrite header_of_cons.
  by rewrite Hw', <- Hw.
Qed.

Lemma project_matches hdr key_cols rec :
  labels_once key_cols hdr = true ->
  Forall (fun k => str (dict_get rec k (VStr "")) <> "") key_cols ->
  row_matches hdr key_cols rec (project rec hdr) = true.
Proof.
  induction key_cols as [|k ks IH]; intros Hl Hk; [done|].
  destruct (labels_once_cons _ _ _ Hl) as [[j Hj] Hl'].
  apply Forall_cons in Hk as [Hk Hks].
  unfold row_matches. simpl. rewrite Hj.
  apply andb_true_iff. split; [|by apply IH].
  apply find_cols_single in Hj.
  rewrite (nth_lookup_Some _ _ _ _ (project_lookup rec _ _ _ Hj)).
  unfold stored_text.
  destruct (String.eqb_spec (str (dict_get rec k (VStr ""))) ""); [done|].
  apply String.eqb_refl.
Qed.

(** Once written, the row is the one the next upsert of the same record
    settles on, and overwriting it changes nothing. *)
Lemma upsert_result_settled key_cols rec (g : grid) :
  let hdr := norm_headers rec g in
  hdr <> [] ->
  labels_once key_cols hdr = true ->
  Forall (fun k => str (dict_get rec k (VStr "")) <> "") key_cols ->
  norm_headers rec (upsert_result key_cols rec g) = hdr /\
  upsert_result key_cols rec (upsert_result key_cols rec g)
  = upsert_result key_cols rec g.
Proof.
  intros hdr Hh Hl Hk.
  assert (norm_grid rec g <> []) as Hne.
  { intros E. by destruct (norm_grid_nil _ _ E) as [_ ?]. }
  pose proof (project_matches hdr key_cols rec Hl Hk) as Hm.
  pose proof (missing_cols_norm rec g) as Hmiss. fold hdr in Hmiss.
  assert (length (norm_grid rec g) = S (length (tail g))) as Hlen.
  { rewrite <- (norm_grid_tail rec g). by destruct (norm_grid rec g). }
  unfold upsert_result at 2 3. fold hdr.
  destruct (upsert_target hdr key_cols rec (tail g)) as [i|] eqn:Et.
  - pose proof (upsert_target_lt _ _ _ _ _ Et) as Hi.
    destruct (overwritten_grid_read rec g i Hne ltac:(lia)) as [Hhead Htail].
    fold hdr in Hhead, Htail.
    destruct (norm_settled rec _ hdr Hhead Hmiss) as [Hnh Hng].
    unfold upsert_result. fold hdr. rewrite Et, Hnh, Hng. split; [done|].
    rewrite Htail.
    assert (upsert_target hdr key_cols rec (<[i:=project rec hdr]> (tail g)) = Some i) as ->.
    { apply upsert_target_first in Et as (_ & _ & Hbefore).
      apply upsert_target_first. split; [done|]. split.
      - exists (project rec hdr). split; [|done].
        by apply list_lookup_insert_eq.
      - intros j row Hj Hrow. rewrite list_lookup_insert_ne in Hrow by lia.
        by eapply Hbefore. }
    by rewrite list_insert_insert_eq.
  - destruct (appended_grid_read rec g Hne) as (_ & Hhead & Htail).
    fold hdr in Hhead, Htail.
    destruct (norm_settled rec _ hdr Hhead Hmiss) as [Hnh Hng].
    unfold upsert_result. fold hdr. rewrite Et, Hnh, Hng. split; [done|].
    rewrite Htail.
    assert (upsert_target hdr key_cols rec (tail g ++ [project rec hdr])
            = Some (length (tail g))) as ->.
    { apply upsert_target_first. split; [done|]. split.
      - exists (project rec hdr). split; [|done].
        by apply list_lookup_middle.
      - intros j row Hj Hrow. rewrite lookup_app_l in Hrow by done.
        unfold upsert_target in Et. rewrite bool_decide_eq_false_2 in Et by done.
        rewrite first_true_None in Et. specialize (Et j).
        rewrite list_lookup_fmap, Hrow in Et. simpl in Et.
        destruct (row_matches hdr key_cols rec row); [done|done]. }
    apply list_insert_id. rewrite <- Hlen. by apply list_lookup_middle.
Qed.



(** ** Adding an item *)

Lemma get_all_values_nil (g : grid) : length (get_all_values g) = 0%nat <-> g = [].
Proof.
  unfold get_all_values. rewrite length_fmap. by destruct g.
Qed.

Lemma ensure_audit_run w :
  ensure_worksheet "Audit_Log" (Some audit_headers) w
  = (Ret tt, set_sheet "Audit_Log" (audit_base (ws_grid "Audit_Log" w)) w).
Proof.
  unfold ensure_worksheet, ws_grid.
  destruct (sheets w !! "Audit_Log") as [g|] eqn:E; simpl.
  - unfold bind, ws_get_all_values, ws_grid. rewrite E. simpl.
    destruct g as [|r g].
    + simpl. rewrite ws_append_row_run. unfold ws_grid. by rewrite E.
    + rewrite bool_decide_eq_false_2 by (rewrite get_all_values_nil; done).
      unfold ret. simpl. by rewrite set_sheet_id.
  - unfold bind, ws_set. rewrite ws_append_row_run.
    unfold ws_grid, set_sheet. simpl.
    by rewrite lookup_insert_eq, insert_insert_eq.
Qed.

Lemma append_audit_run log w :
  append_audit log w
  = (Ret tt,
     set_sheet "Audit_Log"
       (audit_base (ws_grid "Audit_Log" w) ++ [project log audit_headers]) w).
Proof.
  unfold append_audit. erewrite bind_run by apply ensure_audit_run.
  by rewrite ws_append_row_run, ws_grid_set_sheet, set_sheet_set_sheet.
Qed.

(** ** Upsert on a read served from the cache *)

Lemma find_cols_app k a b i :
  find_cols k (a ++ b) i = find_cols k a i ++ find_cols k b (i + length a).
Proof.
  revert i. induction a as [|c a IH]; intros i; simpl.
  - by rewrite Nat.add_0_r.
  - rewrite IH. replace (S i + length a)%nat with (i + S (length a))%nat by lia.
    by destruct (String.eqb c k).
Qed.

Lemma find_cols_absent k b i : k ∉ b -> find_cols k b i = [].
Proof.
  revert i. induction b as [|c b IH]; intros i Hn; simpl; [done|].
  apply not_elem_of_cons in Hn as [Hne Hn].
  destruct (String.eqb_spec c k) as [->|_]; [done|]. by apply IH.
Qed.

Lemma find_cols_norm k rec (g : grid) j :
  find_cols k (header_of g) 0 = [j] ->
  find_cols k (norm_headers rec g) 0 = [j].
Proof.
  intros Hj. unfold norm_headers. rewrite find_cols_app, Hj.
  rewrite find_cols_absent; [done|].
  intros [_ Hn]%missing_cols_spec. apply Hn.
  apply find_cols_single in Hj. by eapply list_elem_of_lookup_2.
Qed.

Lemma labels_once_norm key_cols rec (g : grid) :
  labels_once key_cols (header_of g) = true ->
  labels_once key_cols (norm_headers rec g) = true /\
  (forall row, row_matches (norm_headers rec g) key_cols rec row
               = row_matches (header_of g) key_cols rec row).
Proof.
  induction key_cols as [|k ks IH]; intros Hl; [done|].
  destruct (labels_once_cons _ _ _ Hl) as [[j Hj] Hl'].
  destruct (IH Hl') as [IH1 IH2].
  pose proof (find_cols_norm k rec g j Hj) as Hj'.
  split.
  - unfold labels_once. simpl. rewrite Hj'. simpl. exact IH1.
  - intros row. unfold row_matches. simpl. rewrite Hj, Hj'.
    f_equal. apply IH2.
Qed.

Lemma read_df_warm name w df :
  cache w !! name = Some df -> read_df name w = (Ret df, w).
Proof. intros H. unfold read_df. by rewrite H. Qed.

Lemma read_df_body_current name w :
  read_df_body name (sheets w)
  = mkFrame (header_of (ws_grid name w))
            ((fun r => as_read (pad (row_width (ws_grid name w)) r))
               <$> tail (ws_grid name w)).
Proof.
  unfold ws_grid. destruct (sheets w !! name) as [g|] eqn:E; simpl.
  - destruct g as [|r g].
    + unfold read_df_body. by rewrite E.
    + rewrite <- (insert_id (sheets w) name (r :: g)) by done.
      by rewrite read_df_body_rows.
  - unfold read_df_body. by rewrite E.
Qed.

Lemma upsert_row_run_warm name key_cols rec w :
  cache w !! name = Some (read_df_body name (sheets w)) ->
  tail (ws_grid name w) = []
  \/ (header_of (ws_grid name w) <> []
      /\ labels_once key_cols (header_of (ws_grid name w)) = true) ->
  upsert_row name key_cols rec w
  = (Ret tt,
     mkWorld (<[name := upsert_result key_cols rec (ws_grid name w)]> (sheets w))
             (cache w)).
Proof.
  intros Hwarm Hkeys. set (g0 := ws_grid name w) in *.
  set (hdr := norm_headers rec g0) in *.
  assert (forall row,
             ws_append_row name row (set_sheet name (norm_grid rec g0) w)
             = (Ret tt, mkWorld (<[name := norm_grid rec g0 ++ [row]]> (sheets w)) (cache w)))
    as Happend.
  { intros row. rewrite ws_append_row_run, ws_grid_set_sheet, set_sheet_set_sheet. done. }
  unfold upsert_row.
  run_prepare. fold g0. fold hdr.
  erewrite bind_run; [|apply read_df_warm; rewrite cache_set_sheet; exact Hwarm].
  rewrite read_df_body_current. fold g0.
  unfold upsert_result. fold g0. fold hdr. unfold upsert_target.
  unfold frame_empty. cbn [columns records].
  destruct Hkeys as [Ht|[Hh Hl]].
  - rewrite Ht. cbn [fmap list_fmap].
    rewrite (bool_decide_eq_true_2 (@nil (list cell) = [])) by done.
    rewrite orb_true_r. cbn [first_true].
    destruct (bool_decide (hdr = [])); apply Happend.
  - destruct (labels_once_norm key_cols rec g0 Hl) as [Hl' Hsame].
    fold hdr in Hl', Hsame.
    assert (hdr <> []) as Hh'.
    { unfold hdr, norm_headers. intros E. apply app_eq_nil in E as [E _]. done. }
    rewrite (bool_decide_eq_false_2 (header_of g0 = [])) by done.
    rewrite (bool_decide_eq_false_2 (hdr = [])) by done. cbn [orb].
    destruct (tail g0) as [|r rows] eqn:Et.
    + cbn [fmap list_fmap]. rewrite bool_decide_eq_true_2 by done.
      cbn [first_true]. apply Happend.
    + rewrite bool_decide_eq_false_2 by done.
      rewrite length_fmap.
      erewrite bind_run; [|unfold lift; by rewrite key_mask_all].
      assert (row_matches (header_of g0) key_cols rec <$> r :: rows
              = row_matches hdr key_cols rec <$> r :: rows) as ->.
      { apply list_fmap_ext. intros i x _. by rewrite Hsame. }
      destruct (first_true (row_matches hdr key_cols rec <$> r :: rows)) as [i|] eqn:Ef.
      * destruct (upsert_range_run i hdr) as (label & Hr & _ & Hidx).
        erewrite bind_run; [|unfold lift; by rewrite Hr].
        erewrite ws_update_run.
        -- unfold set_sheet. simpl. rewrite insert_insert_eq. done.
        -- rewrite ws_grid_set_sheet.
           apply grid_update_row.
           ++ by rewrite project_length.
           ++ apply first_true_lt in Ef. rewrite length_fmap in Ef.
              assert (length (tail (norm_grid rec g0)) = length (r :: rows)) as Hlen
                by (by rewrite norm_grid_tail, Et).
              rewrite length_tl in Hlen. simpl in *. lia.
           ++ intros r' Hr'. rewrite project_length. by apply norm_grid_rows.
      * apply Happend.
Qed.

(** Either way the sheet ends as [upsert_result] says. *)
Lemma upsert_row_run_ready name key_cols rec w :
  upsert_ready name key_cols rec w ->
  exists c,
    upsert_row name key_cols rec w
    = (Ret tt,
       mkWorld (<[name := upsert_result key_cols rec (ws_grid name w)]> (sheets w)) c).
Proof.
  intros [[Hcold Hl]|[Hwarm Hk]].
  - eexists. by apply upsert_row_run.
  - eexists. by apply upsert_row_run_warm.
Qed.

(** * The claims of the specification *)




(** C2.  A stored row with a blank key cell, and a record with the same
    name and an empty location: read with the blank as the empty string
    the row matches, yet [upsert_row] compares the blank as the text
    [<NA>], finds no match and appends a second row. *)
Theorem upsert_blank_key_not_matched :
  let rec := [("name", VStr "Aspirin"); ("loc", VStr ""); ("qty", VInt 7)] in
  let hdr := ["name"; "loc"; "qty"] in
  row_matches_blank_as_empty hdr ["name"; "loc"] rec ["Aspirin"; ""; "5"] = true /\
  row_matches hdr ["name"; "loc"] rec ["Aspirin"; ""; "5"] = false /\
  (upsert_row "T" ["name"; "loc"] rec blank_loc_table).1 = Ret tt /\
  ws_grid "T" (upsert_row "T" ["name"; "loc"] rec blank_loc_table).2
  = [["name"; "loc"; "qty"]; ["Aspirin"; ""; "5"]; ["Aspirin"; ""; "7"]].
Proof. cbv zeta. repeat split; vm_compute; reflexivity. Qed.

(** C3.  [_normalize_headers] returns the prior header followed by the
    record's keys that were not in it, in the order of the record: every
    prior column and every key of the record is in the result, the prior
    columns keep their places, and the new ones stand at the end.  The
    header row read back from the sheet is the returned header, and the
    data rows are untouched.  On the stock table a record of name, note
    and lot gives the header name, loc, qty, note, lot. *)
Theorem normalize_headers_keeps_and_appends (name : string) (rec : record) (w : world) :
  let prior := header_of (ws_grid name w) in
  (exists headers w',
    _normalize_headers name rec w = (Ret headers, w') /\
    (forall c, c ∈ prior -> c ∈ headers) /\
    (forall k v, (k, v) ∈ rec -> k ∈ headers) /\
    take (length prior) headers = prior /\
    (forall c, c ∈ drop (length prior) headers <->
               (exists v, (c, v) ∈ rec) /\ c ∉ prior) /\
    drop (length prior) headers = filter (fun k => k ∉ prior) rec.*1 /\
    header_of (ws_grid name w') = headers /\
    columns (read_df_body name (sheets w')) = headers /\
    tail (ws_grid name w') = tail (ws_grid name w)) /\
  (_normalize_headers "T" [("name", VStr "Aspirin"); ("note", VStr "x"); ("lot", VInt 7)]
                      stock_table).1
  = Ret ["name"; "loc"; "qty"; "note"; "lot"] /\
  ws_grid "T"
    (_normalize_headers "T" [("name", VStr "Aspirin"); ("note", VStr "x"); ("lot", VInt 7)]
                        stock_table).2
  = [["name"; "loc"; "qty"; "note"; "lot"]; ["Aspirin"; "B01"; "5"]].
Proof.
  intros prior. split; [|split; vm_compute; reflexivity].
  destruct (normalize_any name rec w) as (w' & Hrun & Hgrid & _ & _).
  assert (forall k, (exists v, (k, v) ∈ rec) <-> k ∈ dict_keys rec) as Hkeys.
  { intros k. unfold dict_keys. rewrite list_elem_of_fmap. split.
    - intros [v Hv]. by exists (k, v).
    - intros [[k' v] [-> Hv]]. by exists v. }
  exists (norm_headers rec (ws_grid name w)), w'.
  split; [done|].
  split; [intros c Hc; apply norm_headers_covers; by left|].
  split.
  { intros k v Hkv. apply norm_headers_covers. right. apply Hkeys. by exists v. }
  split; [unfold norm_headers; by rewrite take_app_length|].
  split.
  { intros c. unfold norm_headers. rewrite drop_app_length, Hkeys.
    apply missing_cols_spec. }
  split; [unfold norm_headers; by rewrite drop_app_length|].
  split; [rewrite Hgrid; apply header_of_norm_grid|].
  split; [|rewrite Hgrid; apply norm_grid_tail].
  rewrite read_df_body_columns. fold (ws_grid name w'). rewrite Hgrid.
  apply header_of_norm_grid.
Qed.

(** C4.  After [append_row], a read that is not served from the cache
    yields a frame whose columns are the header as grown by the record and
    whose last row is the record laid out on those columns, in header
    order: each cell is the text of the record's field, and a field the
    record lacks, like an empty one, reads as missing. *)
Theorem append_then_read_last_row (name : string) (rec : record) (w : world) :
  cache w !! name = None ->
  ws_grid name w <> [] \/ rec <> [] ->
  exists w1 df w2,
    append_row name rec w = (Ret tt, w1) /\
    read_df name w1 = (Ret df, w2) /\
    columns df = norm_headers rec (ws_grid name w) /\
    last (records df)
    = Some ((fun h => blank_to_na (Some (str (dict_get rec h (VStr ""))))) <$> columns df) /\
    length (records df) = S (length (tail (ws_grid name w))) /\
    (forall j h row, last (records df) = Some row ->
        columns df !! j = Some h -> h ∉ dict_keys rec -> row !! j = Some None).
Proof.
  intros Hcold Hne.
  pose proof (norm_grid_nonempty rec _ Hne) as Hg.
  destruct (appended_grid_read rec _ Hg) as (Hw & Hh & Ht).
  set (hdr := norm_headers rec (ws_grid name w)) in *.
  set (g' := norm_grid rec (ws_grid name w) ++ [project rec hdr]) in *.
  assert (g' <> []) as Hg' by (unfold g'; by destruct (norm_grid rec (ws_grid name w))).
  pose proof (read_df_body_rows name g' (sheets w) Hg') as Hread.
  rewrite Hw, Hh, Ht in Hread.
  rewrite fmap_app in Hread. simpl in Hread.
  rewrite pad_ge in Hread by (by rewrite project_length).
  rewrite as_read_project in Hread.
  eexists _, _, _. split; [apply append_row_run|].
  split; [apply read_df_cold; by rewrite cache_set_sheet|].
  rewrite sheets_set_sheet. fold hdr g'. rewrite Hread. simpl.
  split; [done|]. split; [by rewrite last_snoc|].
  split; [rewrite length_app, length_fmap; simpl; lia|].
  intros j h row Hrow Hj Hn. rewrite last_snoc in Hrow. injection Hrow as <-.
  rewrite list_lookup_fmap, Hj. simpl. by rewrite dict_get_absent.
Qed.

Lemma append_then_read_last_row_witness :
  exists w1 df w2,
    append_row "T" [("name", VStr "Ibuprofen"); ("note", VStr "new")] stock_table
    = (Ret tt, w1) /\
    read_df "T" w1 = (Ret df, w2) /\
    columns df = ["name"; "loc"; "qty"; "note"] /\
    last (records df) = Some [Some "Ibuprofen"; None; None; Some "new"].
Proof.
  assert (cache stock_table !! "T" = None) as Hcold by reflexivity.
  assert (ws_grid "T" stock_table <> []
          \/ [("name", VStr "Ibuprofen"); ("note", VStr "new")] <> []) as Hne
    by (right; discriminate).
  destruct (append_then_read_last_row "T" _ stock_table Hcold Hne)
    as (w1 & df & w2 & Ha & Hr & Hc & Hl & _).
  assert (norm_headers [("name", VStr "Ibuprofen"); ("note", VStr "new")]
                       (ws_grid "T" stock_table)
          = ["name"; "loc"; "qty"; "note"]) as E by (vm_compute; reflexivity).
  rewrite E in Hc.
  exists w1, df, w2. split; [exact Ha|]. split; [exact Hr|].
  split; [exact Hc|]. rewrite Hl, Hc. reflexivity.
Defined.

(** A read, an append and a second read: the second read is the memo of
    the first and does not hold the appended row. *)
Lemma append_then_cached_read_misses_row :
  let rec := [("name", VStr "Ibuprofen"); ("note", VStr "new")] in
  let r := (run read_df "T" ; run append_row "T" rec ; read_df "T") stock_table in
  ws_grid "T" r.2
  = [["name"; "loc"; "qty"; "note"]; ["Aspirin"; "B01"; "5"];
     ["Ibuprofen"; ""; ""; "new"]] /\
  r.1 = Ret (mkFrame ["name"; "loc"; "qty"] [[Some "Aspirin"; Some "B01"; Some "5"]]) /\
  (forall df, r.1 = Ret df ->
     last (records df) <> Some [Some "Ibuprofen"; None; None; Some "new"]).
Proof.
  cbv zeta. split; [vm_compute; reflexivity|].
  split; [vm_compute; reflexivity|].
  intros df Hdf. vm_compute in Hdf. injection Hdf as <-. simpl. discriminate.
Qed.

(** C5.  Two upserts of one record, the read cache cleared in between,
    leave the table as one upsert does: same rows, same contents.  The
    first read is fresh or current, the key columns are in the header, the
    record gives each of them a non-empty text, and the table has at
    least one column once the record's are counted. *)
Theorem upsert_twice_after_clear
        (name : string) (key_cols : list string) (rec : record) (w : world) :
  upsert_ready name key_cols rec w ->
  norm_headers rec (ws_grid name w) <> [] ->
  labels_once key_cols (norm_headers rec (ws_grid name w)) = true ->
  Forall (fun k => str (dict_get rec k (VStr "")) <> "") key_cols ->
  exists w1 w2,
    upsert_row name key_cols rec w = (Ret tt, w1) /\
    (run upsert_row name key_cols rec ;
     run cache_data_clear ;
     upsert_row name key_cols rec) w = (Ret tt, w2) /\
    sheets w2 = sheets w1 /\
    length (ws_grid name w2) = length (ws_grid name w1).
Proof.
  intros Hready Hh Hl Hk.
  destruct (upsert_result_settled key_cols rec (ws_grid name w) Hh Hl Hk) as [Hnh Hfix].
  destruct (upsert_row_run_ready name key_cols rec w Hready) as [c Hrun1].
  set (w1 := mkWorld (<[name := upsert_result key_cols rec (ws_grid name w)]> (sheets w)) c) in *.
  set (wc := mkWorld (sheets w1) ∅).
  assert (ws_grid name wc = upsert_result key_cols rec (ws_grid name w)) as Hgrid.
  { unfold ws_grid, wc, w1. simpl. by rewrite lookup_insert_eq. }
  assert (upsert_row name key_cols rec wc
          = (Ret tt, mkWorld (sheets w1) (<[name := frame_after rec (ws_grid name wc)]> ∅)))
    as Hrun2.
  { rewrite upsert_row_run; [|done|by rewrite Hgrid, Hnh].
    rewrite Hgrid, Hfix. f_equal. f_equal. unfold wc, w1. simpl.
    by rewrite insert_insert_eq. }
  exists w1, (mkWorld (sheets w1) (<[name := frame_after rec (ws_grid name wc)]> ∅)).
  split; [done|]. split.
  - erewrite bind_run by exact Hrun1.
    erewrite bind_run by reflexivity. exact Hrun2.
  - split; [done|]. unfold ws_grid. simpl. done.
Qed.

Lemma upsert_twice_after_clear_witness :
  exists w1 w2,
    upsert_row "T" ["name"; "loc"]
               [("name", VStr "Ibuprofen"); ("loc", VStr "C02"); ("qty", VInt 3)]
               stock_table = (Ret tt, w1) /\
    (run upsert_row "T" ["name"; "loc"]
           [("name", VStr "Ibuprofen"); ("loc", VStr "C02"); ("qty", VInt 3)] ;
     run cache_data_clear ;
     upsert_row "T" ["name"; "loc"]
           [("name", VStr "Ibuprofen"); ("loc", VStr "C02"); ("qty", VInt 3)])
      stock_table = (Ret tt, w2) /\
    sheets w2 = sheets w1 /\
    length (ws_grid "T" w2) = length (ws_grid "T" w1).
Proof.
  assert (upsert_ready "T" ["name"; "loc"]
            [("name", VStr "Ibuprofen"); ("loc", VStr "C02"); ("qty", VInt 3)]
            stock_table) as Hready
    by (left; split; vm_compute; reflexivity).
  assert (norm_headers [("name", VStr "Ibuprofen"); ("loc", VStr "C02"); ("qty", VInt 3)]
                       (ws_grid "T" stock_table) <> []) as Hh
    by (vm_compute; discriminate).
  assert (labels_once ["name"; "loc"]
            (norm_headers [("name", VStr "Ibuprofen"); ("loc", VStr "C02"); ("qty", VInt 3)]
                          (ws_grid "T" stock_table)) = true) as Hl
    by (vm_compute; reflexivity).
  assert (Forall (fun k => str (dict_get
              [("name", VStr "Ibuprofen"); ("loc", VStr "C02"); ("qty", VInt 3)]
              k (VStr "")) <> "") ["name"; "loc"]) as Hk
    by (repeat constructor; simpl; discriminate).
  exact (upsert_twice_after_clear "T" ["name"; "loc"] _ stock_table Hready Hh Hl Hk).
Defined.

(** Two upserts in a row, the second served by the read the first one
    cached: the record is appended twice. *)
Lemma upsert_twice_appends_twice :
  let rec := [("name", VStr "Ibuprofen"); ("loc", VStr "C02"); ("qty", VInt 3)] in
  let once := upsert_row "T" ["name"; "loc"] rec stock_table in
  let twice := (run upsert_row "T" ["name"; "loc"] rec ;
                upsert_row "T" ["name"; "loc"] rec) stock_table in
  once.1 = Ret tt /\ twice.1 = Ret tt /\
  ws_grid "T" once.2
  = [["name"; "loc"; "qty"]; ["Aspirin"; "B01"; "5"]; ["Ibuprofen"; "C02"; "3"]] /\
  ws_grid "T" twice.2
  = [["name"; "loc"; "qty"]; ["Aspirin"; "B01"; "5"]; ["Ibuprofen"; "C02"; "3"];
     ["Ibuprofen"; "C02"; "3"]] /\
  sheets twice.2 <> sheets once.2.
Proof.
  cbv zeta. repeat split; try (vm_compute; reflexivity).
  intros E. apply (f_equal (fun m => m !! "T")) in E.
  vm_compute in E. discriminate E.
Qed.

(** C6.  The row Aspirin / B01 with its quantity and operator cells left
    blank: the blank cells are read as [pd.NA], the script raises
    [TypeError] where it takes their truth value, and neither the row nor
    the audit log is written.  The handler alone, given the missing
    quantity, raises where it takes the old value, before any write. *)
Theorem save_blank_row_raises (now : string) :
  (page_save (sheet_name_of "21") "21" "Bob" now 0 12 "" aspirin_blank).1
  = Raise TypeError /\
  sheets (page_save (sheet_name_of "21") "21" "Bob" now 0 12 "" aspirin_blank).2
  = sheets aspirin_blank /\
  (forall w,
      save_handler (sheet_name_of "21") "21" "Bob" now
                   (mkLocals "Aspirin" "B01" None "" "" "") 12 "" w
      = (Raise TypeError, w)).
Proof. repeat split; vm_compute; reflexivity. Qed.

(** With no quantity and operator column in the sheet yet, the same save
    goes through: the row is rewritten and one audit record is logged. *)
Lemma save_bare_row_ok (now : string) :
  let r := page_save (sheet_name_of "21") "21" "Bob" now 0 12 "" aspirin_bare in
  r.1 = Ret tt /\
  ws_grid (sheet_name_of "21") r.2
  = [[COL_NAME; COL_LOC; COL_QTY; COL_NOTE; COL_OWNER; COL_TIME];
     ["Aspirin"; "B01"; "12"; ""; "Bob"; now]] /\
  ws_grid "Audit_Log" r.2
  = [audit_headers; [now; "21"; "B"; "Aspirin"; COL_QTY; ""; "12"; "Bob"]].
Proof. cbv zeta. repeat split; vm_compute; reflexivity. Qed.


Lemma row_get_absent (row : Series) label d :
  label ∉ row.*1 -> row_get row label d = Some d.
Proof.
  induction row as [|[l c] row IH]; [done|]. rewrite fmap_cons. simpl.
  intros [Hne Hin]%not_elem_of_cons.
  destruct (String.eqb_spec l label) as [->|_]; [done|]. by apply IH.
Qed.

Lemma row_locals_owner row lc :
  row_locals row = Ret lc -> row_get row COL_OWNER "" = Some (l_owner_existing lc).
Proof.
  unfold row_locals.
  destruct (str_or_empty (row_get row COL_NAME "")); [|done..].
  destruct (str_or_empty (row_get row COL_LOC "")); [|done..].
  destruct (str_or_empty (row_get row COL_NOTE "")); [|done..].
  destruct (row_get row COL_OWNER "") as [o|] eqn:Eo; [|done].
  unfold str_or_empty at 1.
  destruct (String.eqb_spec o "") as [->|Hne];
    (destruct (str_or_empty (row_get row COL_TIME "")); [|done..]);
    by intros [= <-].
Qed.

Lemma row_locals_unowned row :
  row_get row COL_OWNER "" = None -> row_locals row = Raise TypeError.
Proof.
  intros Ho. unfold row_locals. rewrite Ho.
  destruct (str_or_empty (row_get row COL_NAME "")) as [?|[]|] eqn:E1;
    try done; try (by destruct (row_get row COL_NAME "") as [x|];
                      [simpl in E1; destruct (String.eqb x "")|]).
  destruct (str_or_empty (row_get row COL_LOC "")) as [?|[]|] eqn:E2;
    try done; try (by destruct (row_get row COL_LOC "") as [x|];
                      [simpl in E2; destruct (String.eqb x "")|]).
  destruct (str_or_empty (row_get row COL_NOTE "")) as [?|[]|] eqn:E3;
    try done; try (by destruct (row_get row COL_NOTE "") as [x|];
                      [simpl in E3; destruct (String.eqb x "")|]).
Qed.

(** C8.  The gate, from the operator cell of the sheet to the button.  A
    stored operator that is blank is read as missing, and binding the row
    raises [TypeError]: the page stops at that row and nobody edits it.
    A stored operator that is not blank is bound as it stands, and the row
    is editable exactly when that text, trimmed, is empty or equals the
    trimmed name of the session's operator, character for character: a
    row of white space is open to anyone, and a row of Alice is locked for
    alice.  In a table without an operator column the empty string is
    bound and the row is open to anyone. *)
Theorem can_edit_gate :
  (forall o, blank_to_na (Some o) = None <-> o = "") /\
  (forall row, row_get row COL_OWNER "" = None -> row_locals row = Raise TypeError) /\
  (forall row lc, row_locals row = Ret lc ->
                  row_get row COL_OWNER "" = Some (l_owner_existing lc)) /\
  (forall row : Series, COL_OWNER ∉ row.*1 -> row_get row COL_OWNER "" = Some "") /\
  (forall owner_existing user,
      can_edit owner_existing user = true <->
      strip owner_existing = "" \/ strip owner_existing = strip user) /\
  (forall user, can_edit "" user = true) /\
  (forall user, can_edit "   " user = true) /\
  (forall user, can_edit "Alice" user = true <-> strip user = "Alice") /\
  can_edit "Alice" " Alice " = true /\
  can_edit "Alice" "Alice　" = true /\
  can_edit "Alice" "alice" = false /\
  (forall user now pressed,
      user <> "" ->
      (script_run (sheet_name_of "21") "21" user now default_view pressed unowned_row).1
      = Raise TypeError /\
      sheets (script_run (sheet_name_of "21") "21" user now default_view pressed
                         unowned_row).2
      = sheets unowned_row).
Proof.
  assert (forall owner_existing user,
             can_edit owner_existing user = true <->
             strip owner_existing = "" \/ strip owner_existing = strip user) as Hgate.
  { intros o u. unfold can_edit. rewrite orb_true_iff, !String.eqb_eq. done. }
  split.
  { intros o. simpl. destruct (String.eqb_spec o ""); split; done. }
  split; [apply row_locals_unowned|].
  split; [apply row_locals_owner|].
  split; [intros row; apply row_get_absent|].
  split; [exact Hgate|].
  split; [reflexivity|]. split; [reflexivity|].
  split.
  { intros user. rewrite Hgate. split.
    - intros [H|H]; [done|]. by rewrite <- H.
    - intros H. right. by rewrite H. }
  split; [vm_compute; reflexivity|].
  split; [vm_compute; reflexivity|].
  split; [vm_compute; reflexivity|].
  intros user now pressed Huser. unfold script_run.
  destruct (String.eqb_spec user "") as [E|_]; [done|].
  split; vm_compute; reflexivity.
Qed.

(** C9.  The add button with an empty name or an empty location writes
    nothing: the store is left as it was.  With neither empty, one row
    is appended to the device's sheet, holding the trimmed name, location
    and note, the quantity, the operator and the time stamp, and one
    record is appended to the audit log, its field the new-item marker
    and its new value the quantity column and quantity.  The check comes
    before the trimming: a name of white space passes it, and the row is
    written with an empty name, after which the page no longer renders.
    On a workbook without the device's sheet the script stops before the
    form. *)
Theorem add_new_item_checked
        (sheet_name device user now new_name new_loc : string)
        (new_qty_val : Z) (new_note_val : string) (w : world) :
  let payload :=
    [ (COL_NAME, VStr (strip new_name)); (COL_LOC, VStr (strip new_loc));
      (COL_QTY, VInt new_qty_val); (COL_NOTE, VStr (strip new_note_val));
      (COL_OWNER, VStr user); (COL_TIME, VStr now) ] in
  let hdr := norm_headers payload (ws_grid sheet_name w) in
  let blank := page_add (sheet_name_of "21") "21" "Bob" now " " "B01" 0 "n" counted_table in
  (new_name = "" \/ new_loc = "" ->
   add_handler sheet_name device user now new_name new_loc new_qty_val new_note_val w
   = (Ret tt, w)) /\
  (new_name <> "" -> new_loc <> "" -> sheet_name <> "Audit_Log" ->
   exists w',
     add_handler sheet_name device user now new_name new_loc new_qty_val new_note_val w
     = (Ret tt, w') /\
     ws_grid sheet_name w'
     = norm_grid payload (ws_grid sheet_name w) ++ [project payload hdr] /\
     (forall j h, hdr !! j = Some h ->
                  project payload hdr !! j = Some (str (dict_get payload h (VStr "")))) /\
     (forall h, h ∈ [COL_NAME; COL_LOC; COL_QTY; COL_NOTE; COL_OWNER; COL_TIME] -> h ∈ hdr) /\
     ws_grid "Audit_Log" w'
     = audit_base (ws_grid "Audit_Log" w)
       ++ [[now; device; extract_zone (Some new_loc); strip new_name; NEW_ITEM; "";
            COL_QTY +:+ "=" +:+ str (VInt new_qty_val); user]] /\
     (forall other, other <> sheet_name -> other <> "Audit_Log" ->
                    sheets w' !! other = sheets w !! other)) /\
  blank.1 = Ret tt /\
  ws_grid (sheet_name_of "21") blank.2
  = [[COL_NAME; COL_LOC; COL_QTY; COL_NOTE; COL_OWNER; COL_TIME];
     ["Aspirin"; "B01"; "5"; "a"; "Alice"; "2024-05-01 08:00:00"];
     [""; "B01"; "0"; "n"; "Bob"; now]] /\
  ws_grid "Audit_Log" blank.2
  = [audit_headers; [now; "21"; "B"; ""; NEW_ITEM; ""; COL_QTY +:+ "=0"; "Bob"]] /\
  (script_run (sheet_name_of "21") "21" "Bob" now default_view NoButton blank.2).1
  = Raise TypeError /\
  (page_add (sheet_name_of "21") "21" "Bob" now "Aspirin" "B01" 0 "" (mkWorld ∅ ∅)).1
  = Raise KeyError /\
  sheets (page_add (sheet_name_of "21") "21" "Bob" now "Aspirin" "B01" 0 ""
                   (mkWorld ∅ ∅)).2 = ∅.
Proof.
  intros payload hdr blank. split; [|split].
  - intros Hblank. unfold add_handler.
    assert (String.eqb new_name "" || String.eqb new_loc "" = true) as ->; [|done].
    apply orb_true_iff. destruct Hblank as [->| ->]; [by left | by right].
  - intros Hname Hloc Hsheet. unfold add_handler.
    assert (String.eqb new_name "" || String.eqb new_loc "" = false) as ->.
    { apply orb_false_iff. split; by apply String.eqb_neq. }
    fold payload.
    erewrite bind_run by apply append_row_run.
    erewrite bind_run by apply append_audit_run.
    eexists. split; [reflexivity|]. fold hdr.
    unfold cache_data_clear, ws_grid. simpl.
    rewrite lookup_insert_ne by done. rewrite lookup_insert_eq. simpl.
    split; [done|]. split; [intros j h; apply project_lookup|].
    split; [intros h Hh; apply norm_headers_covers; by right|].
    rewrite lookup_insert_eq. simpl. rewrite lookup_insert_ne by done.
    split; [done|].
    intros other H1 H2. by rewrite !lookup_insert_ne.
  - subst blank. repeat split; vm_compute; reflexivity.
Qed.

Lemma add_new_item_checked_witness :
  exists w',
    add_handler (sheet_name_of "21") "21" "Bob" "2024-05-01 09:00:00"
                "Ibuprofen" "C02" 3 "n" counted_table = (Ret tt, w') /\
    ws_grid (sheet_name_of "21") w'
    = [[COL_NAME; COL_LOC; COL_QTY; COL_NOTE; COL_OWNER; COL_TIME];
       ["Aspirin"; "B01"; "5"; "a"; "Alice"; "2024-05-01 08:00:00"];
       ["Ibuprofen"; "C02"; "3"; "n"; "Bob"; "2024-05-01 09:00:00"]] /\
    ws_grid "Audit_Log" w'
    = [audit_headers;
       ["2024-05-01 09:00:00"; "21"; "C"; "Ibuprofen"; NEW_ITEM; "";
        COL_QTY +:+ "=3"; "Bob"]].
Proof.
  assert ("Ibuprofen" <> "") as Hname by discriminate.
  assert ("C02" <> "") as Hloc by discriminate.
  assert (sheet_name_of "21" <> "Audit_Log") as Hsheet by (vm_compute; discriminate).
  destruct (proj1 (proj2 (add_new_item_checked (sheet_name_of "21") "21" "Bob"
                     "2024-05-01 09:00:00" "Ibuprofen" "C02" 3 "n" counted_table))
                  Hname Hloc Hsheet)
    as (w' & Hrun & Hgrid & _ & _ & Haudit & _).
  exists w'. split; [exact Hrun|]. split.
  - rewrite Hgrid. vm_compute. reflexivity.
  - rewrite Haudit. vm_compute. reflexivity.
Defined.



(** * Further properties of the code *)

(** ** The worksheet is made sure of *)

Lemma ensure_run name headers w :
  ensure_worksheet name headers w
  = (Ret tt, set_sheet name (ensured headers (ws_grid name w)) w).
Proof.
  unfold ensure_worksheet, ws_grid, ensured.
  destruct (sheets w !! name) as [g|] eqn:E; simpl.
  - destruct (given headers) as [hs|] eqn:Eh.
    + unfold bind, ws_get_all_values, ws_grid. rewrite E. simpl.
      destruct g as [|r g].
      * simpl. rewrite ws_append_row_run. unfold ws_grid. by rewrite E.
      * rewrite bool_decide_eq_false_2 by (rewrite get_all_values_nil; done).
        unfold ret. by rewrite set_sheet_id.
    + unfold ret. rewrite set_sheet_id; [done|]. rewrite E. by destruct g.
  - destruct (given headers) as [hs|] eqn:Eh.
    + unfold bind, ws_set. rewrite ws_append_row_run.
      unfold ws_grid, set_sheet. simpl.
      by rewrite lookup_insert_eq, insert_insert_eq.
    + reflexivity.
Qed.

(** X1.  [ensure_worksheet] always returns and leaves the sheet in place.
    A sheet that holds a row is not touched; a missing or empty one
    becomes the header row when a non-empty header is given and an empty
    sheet otherwise.  Other sheets and the cache are as before, and a
    second call changes nothing. *)
Theorem ensure_worksheet_settles (name : string) (headers : option (list string)) (w : world) :
  exists w1,
    ensure_worksheet name headers w = (Ret tt, w1) /\
    is_Some (sheets w1 !! name) /\
    (ws_grid name w <> [] -> ws_grid name w1 = ws_grid name w) /\
    (ws_grid name w = [] ->
     ws_grid name w1 = match given headers with Some hs => [hs] | None => [] end) /\
    (forall other, other <> name -> sheets w1 !! other = sheets w !! other) /\
    cache w1 = cache w /\
    ensure_worksheet name headers w1 = (Ret tt, w1).
Proof.
  exists (set_sheet name (ensured headers (ws_grid name w)) w).
  split; [apply ensure_run|].
  split; [rewrite sheets_set_sheet, lookup_insert_eq; eauto|].
  rewrite ws_grid_set_sheet.
  split; [intros Hg; unfold ensured; by destruct (ws_grid name w)|].
  split; [intros ->; unfold ensured; by destruct (given headers)|].
  split; [intros other Hne; by rewrite sheets_set_sheet, lookup_insert_ne|].
  split; [done|].
  rewrite ensure_run, ws_grid_set_sheet, set_sheet_set_sheet.
  f_equal. f_equal. unfold ensured.
  destruct (ws_grid name w) as [|r g]; [|done].
  destruct (given headers); done.
Qed.

(** ** Reading a sheet *)

Lemma blank_to_na_not_blank c : blank_to_na c <> Some "".
Proof.
  destruct c as [s|]; simpl; [|done].
  destruct (String.eqb_spec s ""); [done|]. congruence.
Qed.

Lemma pad_width_length (g : grid) r :
  r ∈ g -> length (pad (row_width g) r) = row_width g.
Proof. intros H. rewrite pad_length. apply row_width_elem in H. lia. Qed.

(** X2.  The frame [read_df] builds is rectangular, holds no empty string
    (a blank cell reads as missing), and has one record per row below the
    header.  A sheet that is missing or has no row reads as the empty
    frame, and a sheet with its header row alone as a frame with those
    columns, no record, and [df.empty] true. *)
Theorem read_df_frame_shape (sheet_name : string) (sh : gmap string grid) :
  let df := read_df_body sheet_name sh in
  Forall (fun r => length r = length (columns df)) (records df) /\
  Forall (fun r => Forall (fun c => c <> Some "") r) (records df) /\
  length (records df) = length (tail (default [] (sh !! sheet_name))) /\
  (sh !! sheet_name = None \/ sh !! sheet_name = Some [] -> df = empty_frame) /\
  (forall h, sh !! sheet_name = Some [h] ->
             columns df = h /\ records df = [] /\ frame_empty df = true).
Proof.
  intros df. unfold df.
  pose proof (read_df_body_current sheet_name (mkWorld sh ∅)) as Hread.
  unfold ws_grid in Hread. simpl in Hread. rewrite Hread. simpl.
  set (g := default [] (sh !! sheet_name)).
  split.
  { apply Forall_forall. intros r [x [-> Hx]]%list_elem_of_fmap.
    unfold as_read. rewrite length_fmap.
    destruct g as [|r0 g']; [by apply elem_of_nil in Hx|].
    rewrite header_of_cons, !pad_width_length; [done|by left|by right]. }
  split.
  { apply Forall_forall. intros r [x [-> Hx]]%list_elem_of_fmap.
    apply Forall_forall. intros c [y [-> Hy]]%list_elem_of_fmap.
    apply blank_to_na_not_blank. }
  split; [by rewrite length_fmap|].
  split.
  { intros [E|E]; unfold g; rewrite E; reflexivity. }
  intros h E. unfold g. rewrite E. simpl.
  rewrite header_of_cons. rewrite pad_ge.
  - split; [done|]. split; [done|]. unfold frame_empty. simpl.
    by rewrite orb_true_r.
  - rewrite row_width_cons, row_width_nil. lia.
Qed.

(** X3.  A read, an append and a second read: the second read is served
    from the cache and is the frame of the first, without the appended
    row; after [st.cache_data.clear()] the read shows one record more. *)
Theorem read_after_append_is_stale (name : string) (rec : record) (w : world) :
  cache w !! name = None ->
  ws_grid name w <> [] \/ rec <> [] ->
  exists a w1 c w2,
    (do a <- read_df name ; run append_row name rec ; read_df name) w = (Ret a, w1) /\
    a = read_df_body name (sheets w) /\
    (run cache_data_clear ; read_df name) w1 = (Ret c, w2) /\
    c = read_df_body name (sheets w1) /\
    length (records c) = S (length (records a)).
Proof.
  intros Hcold Hne.
  set (a := read_df_body name (sheets w)).
  set (w0 := mkWorld (sheets w) (<[name := a]> (cache w))).
  set (g' := norm_grid rec (ws_grid name w) ++ [project rec (norm_headers rec (ws_grid name w))]).
  assert (ws_grid name w0 = ws_grid name w) as Hg0 by reflexivity.
  exists a, (set_sheet name g' w0).
  exists (read_df_body name (<[name := g']> (sheets w))),
         (mkWorld (<[name := g']> (sheets w))
                  {[ name := read_df_body name (<[name := g']> (sheets w)) ]}).
  split.
  { erewrite bind_run by (by apply read_df_cold).
    erewrite bind_run by apply append_row_run.
    fold a w0. rewrite Hg0. fold g'.
    apply read_df_warm. rewrite cache_set_sheet. simpl. by rewrite lookup_insert_eq. }
  split; [done|]. split.
  { erewrite bind_run by reflexivity.
    rewrite read_df_cold by (simpl; apply lookup_empty).
    simpl. by rewrite insert_empty. }
  split; [done|].
  pose proof (norm_grid_nonempty rec _ Hne) as Hg.
  destruct (appended_grid_read rec _ Hg) as (Hw & Hh & Ht).
  assert (g' <> []) as Hg' by (unfold g'; by destruct (norm_grid rec (ws_grid name w))).
  rewrite (read_df_body_rows name g' (sheets w) Hg').
  fold g' in Ht. rewrite Ht. simpl. rewrite length_fmap, length_app. simpl.
  unfold a. rewrite read_df_body_current. simpl. rewrite length_fmap. lia.
Qed.

Lemma read_after_append_is_stale_witness :
  exists a w1 c w2,
    (do a <- read_df "T" ;
     run append_row "T" [("name", VStr "Ibuprofen"); ("note", VStr "new")] ;
     read_df "T") stock_table = (Ret a, w1) /\
    a = read_df_body "T" (sheets stock_table) /\
    (run cache_data_clear ; read_df "T") w1 = (Ret c, w2) /\
    c = read_df_body "T" (sheets w1) /\
    length (records c) = S (length (records a)).
Proof.
  assert (cache stock_table !! "T" = None) as Hcold by reflexivity.
  assert (ws_grid "T" stock_table <> []
          \/ [("name", VStr "Ibuprofen"); ("note", VStr "new")] <> []) as Hne
    by (right; discriminate).
  exact (read_after_append_is_stale "T" _ stock_table Hcold Hne).
Defined.

(** ** The header, normalised *)

Lemma normalize_settled_run name rec w :
  missing_cols rec (header_of (ws_grid name w)) = [] ->
  _normalize_headers name rec w = (Ret (header_of (ws_grid name w)), w).
Proof.
  intros Hm. unfold _normalize_headers, bind, ws_get_all_values.
  fold (header_of (ws_grid name w)). unfold missing_cols in Hm. by rewrite Hm.
Qed.

(** X4.  Normalising the header a second time for the same record returns
    the same header and writes nothing. *)
Theorem normalize_headers_twice (name : string) (rec : record) (w : world) :
  exists headers w1,
    _normalize_headers name rec w = (Ret headers, w1) /\
    _normalize_headers name rec w1 = (Ret headers, w1).
Proof.
  destruct (normalize_any name rec w) as (w1 & Hrun & Hgrid & _ & _).
  exists (norm_headers rec (ws_grid name w)), w1. split; [done|].
  rewrite normalize_settled_run; rewrite Hgrid, header_of_norm_grid; [done|].
  apply missing_cols_norm.
Qed.

(** X5.  When the header has no column twice (and the record, a dict, no
    key twice), the normalised header has no column twice either, in the
    value returned and in the sheet. *)
Theorem normalize_headers_no_duplicates (name : string) (rec : record) (w : world) :
  NoDup (header_of (ws_grid name w)) ->
  NoDup (dict_keys rec) ->
  exists headers w1,
    _normalize_headers name rec w = (Ret headers, w1) /\
    NoDup headers /\
    NoDup (header_of (ws_grid name w1)).
Proof.
  intros Hh Hk.
  destruct (normalize_any name rec w) as (w1 & Hrun & Hgrid & _ & _).
  exists (norm_headers rec (ws_grid name w)), w1. split; [done|].
  assert (NoDup (norm_headers rec (ws_grid name w))) as Hnd.
  { unfold norm_headers. apply NoDup_app. split; [done|]. split.
    - intros c Hc [_ Hn]%missing_cols_spec. done.
    - unfold missing_cols. by apply NoDup_filter. }
  split; [done|]. by rewrite Hgrid, header_of_norm_grid.
Qed.

Lemma normalize_headers_no_duplicates_witness :
  exists headers w1,
    _normalize_headers "T" [("name", VStr "Ibuprofen"); ("note", VStr "new")] stock_table
    = (Ret headers, w1) /\
    NoDup headers /\
    NoDup (header_of (ws_grid "T" w1)).
Proof.
  assert (NoDup (header_of (ws_grid "T" stock_table))) as Hh
    by (apply (bool_decide_unpack _); vm_compute; reflexivity).
  assert (NoDup (dict_keys [("name", VStr "Ibuprofen"); ("note", VStr "new")])) as Hk
    by (apply (bool_decide_unpack _); vm_compute; reflexivity).
  exact (normalize_headers_no_duplicates "T" _ stock_table Hh Hk).
Defined.

(** ** Upsert: a key column the table does not have, and the first row *)

Lemma find_cols_nodup k cols i :
  NoDup cols -> k ∈ cols -> exists j, find_cols k cols i = [j].
Proof.
  revert i. induction cols as [|c cs IH]; intros i Hnd Hin; [by apply elem_of_nil in Hin|].
  apply NoDup_cons in Hnd as [Hc Hnd]. simpl.
  destruct (String.eqb_spec c k) as [->|Hne].
  - exists i. by rewrite find_cols_absent.
  - apply elem_of_cons in Hin as [->|Hin]; [done|]. by apply IH.
Qed.

Lemma key_mask_unknown hdr (rows : list (list cell)) key_cols rec mask :
  NoDup hdr ->
  (exists k, k ∈ key_cols /\ k ∉ hdr) ->
  key_mask (mkFrame hdr rows) key_cols rec mask = Raise KeyError.
Proof.
  intros Hnd. revert mask.
  induction key_cols as [|k ks IH]; intros mask (k0 & Hin & Hout).
  - by apply elem_of_nil in Hin.
  - simpl. unfold frame_col. simpl.
    destruct (decide (k ∈ hdr)) as [Hk|Hk].
    + destruct (find_cols_nodup k hdr 0 Hnd Hk) as [j ->].
      apply IH. exists k0. split; [|done].
      apply elem_of_cons in Hin as [->|Hin]; [done|done].
    + by rewrite find_cols_absent.
Qed.

(** X6.  On a table with data rows, a key column that is neither in the
    header nor in the record makes [upsert_row] raise [KeyError].  By then
    the header has been normalised: the columns of the record are in the
    sheet, and no data row has been written or changed. *)
Theorem upsert_row_unknown_key
        (name : string) (key_cols : list string) (rec : record) (w : world) :
  cache w !! name = None ->
  tail (ws_grid name w) <> [] ->
  norm_headers rec (ws_grid name w) <> [] ->
  NoDup (norm_headers rec (ws_grid name w)) ->
  (exists k, k ∈ key_cols /\ k ∉ norm_headers rec (ws_grid name w)) ->
  exists w',
    upsert_row name key_cols rec w = (Raise KeyError, w') /\
    ws_grid name w' = norm_grid rec (ws_grid name w) /\
    header_of (ws_grid name w') = norm_headers rec (ws_grid name w) /\
    tail (ws_grid name w') = tail (ws_grid name w) /\
    (forall other, other <> name -> sheets w' !! other = sheets w !! other).
Proof.
  intros Hcold Hrows Hh Hnd Hk.
  set (g0 := ws_grid name w) in *. set (hdr := norm_headers rec g0) in *.
  exists (mkWorld (<[name := norm_grid rec g0]> (sheets w))
                  (<[name := frame_after rec g0]> (cache w))).
  split.
  - unfold upsert_row. run_prepare. fold g0. fold hdr.
    erewrite bind_run; [|by apply read_df_cold].
    rewrite sheets_set_sheet, cache_set_sheet, read_df_body_norm.
    unfold frame_empty, frame_after. fold hdr. cbn [columns records].
    rewrite (bool_decide_eq_false_2 (hdr = [])) by done. cbn [orb].
    rewrite bool_decide_eq_false_2
      by (destruct (tail g0); [done|discriminate]).
    unfold bind, lift. by rewrite key_mask_unknown.
  - unfold ws_grid at 1 2 3. simpl. rewrite lookup_insert_eq. simpl.
    split; [done|]. split; [apply header_of_norm_grid|].
    split; [apply norm_grid_tail|].
    intros other Hne. by rewrite lookup_insert_ne.
Qed.

Lemma upsert_row_unknown_key_witness :
  exists w',
    upsert_row "T" ["code"] [("name", VStr "Aspirin"); ("qty", VInt 7)] stock_table
    = (Raise KeyError, w') /\
    ws_grid "T" w' = [["name"; "loc"; "qty"]; ["Aspirin"; "B01"; "5"]].
Proof.
  assert (cache stock_table !! "T" = None) as Hcold by reflexivity.
  assert (tail (ws_grid "T" stock_table) <> []) as Hrows by (vm_compute; discriminate).
  assert (norm_headers [("name", VStr "Aspirin"); ("qty", VInt 7)] (ws_grid "T" stock_table)
          = ["name"; "loc"; "qty"]) as E by (vm_compute; reflexivity).
  assert (norm_headers [("name", VStr "Aspirin"); ("qty", VInt 7)] (ws_grid "T" stock_table)
          <> []) as Hh by (rewrite E; discriminate).
  assert (NoDup (norm_headers [("name", VStr "Aspirin"); ("qty", VInt 7)]
                              (ws_grid "T" stock_table))) as Hnd
    by (rewrite E; apply (bool_decide_unpack _); vm_compute; reflexivity).
  assert (exists k, k ∈ ["code"]
                    /\ k ∉ norm_headers [("name", VStr "Aspirin"); ("qty", VInt 7)]
                                        (ws_grid "T" stock_table)) as Hk.
  { exists "code". split; [by left|]. rewrite E.
    apply (bool_decide_unpack _). vm_compute. reflexivity. }
  destruct (upsert_row_unknown_key "T" ["code"] _ stock_table Hcold Hrows Hh Hnd Hk)
    as (w' & Hrun & Hgrid & _).
  exists w'. split; [exact Hrun|]. rewrite Hgrid. vm_compute. reflexivity.
Defined.

Lemma filter_all {A} (P : A -> Prop) `{forall x, Decision (P x)} (l : list A) :
  (forall x, x ∈ l -> P x) -> filter P l = l.
Proof.
  induction l as [|x l IH]; intros Hl; [done|].
  rewrite filter_cons_True by (apply Hl; by left).
  f_equal. apply IH. intros y Hy. apply Hl. by right.
Qed.

Lemma norm_of_empty_sheet rec :
  rec <> [] ->
  norm_headers rec [] = dict_keys rec /\ norm_grid rec [] = [dict_keys rec].
Proof.
  intros Hrec. unfold norm_grid, norm_headers. rewrite header_of_nil.
  assert (missing_cols rec [] = dict_keys rec) as ->.
  { unfold missing_cols. apply filter_all. intros x _. apply not_elem_of_nil. }
  simpl. destruct rec as [|[k v] rec]; done.
Qed.

Lemma upsert_row_run_no_rows name key_cols rec w :
  cache w !! name = None ->
  tail (ws_grid name w) = [] ->
  upsert_row name key_cols rec w
  = (Ret tt,
     mkWorld (<[name := norm_grid rec (ws_grid name w)
                         ++ [project rec (norm_headers rec (ws_grid name w))]]> (sheets w))
             (<[name := frame_after rec (ws_grid name w)]> (cache w))).
Proof.
  intros Hcold Ht. unfold upsert_row. run_prepare.
  erewrite bind_run; [|by apply read_df_cold].
  rewrite sheets_set_sheet, cache_set_sheet, read_df_body_norm.
  unfold frame_empty, frame_after. cbn [columns records]. rewrite Ht.
  cbn [fmap list_fmap].
  rewrite (bool_decide_eq_true_2 (@nil (list cell) = [])) by done.
  rewrite orb_true_r. apply append_after_read.
Qed.

(** X7.  While the table has no data row, [upsert_row] looks up no key
    column: whatever the key columns are it appends the record as the
    first row.  On a sheet that is missing or empty this creates the
    table: the record's keys become the header, in the record's order,
    and its values the row below.  Other sheets stay as they are. *)
Theorem upsert_row_into_empty_table
        (name : string) (key_cols : list string) (rec : record) (w : world) :
  tail (ws_grid name w) = [] ->
  cache w !! name = None \/ cache w !! name = Some (read_df_body name (sheets w)) ->
  exists w',
    upsert_row name key_cols rec w = (Ret tt, w') /\
    ws_grid name w'
    = norm_grid rec (ws_grid name w) ++ [project rec (norm_headers rec (ws_grid name w))] /\
    (ws_grid name w = [] -> rec <> [] ->
     ws_grid name w' = [dict_keys rec; project rec (dict_keys rec)]) /\
    (forall other, other <> name -> sheets w' !! other = sheets w !! other).
Proof.
  intros Ht Hcache.
  assert (upsert_target (norm_headers rec (ws_grid name w)) key_cols rec (tail (ws_grid name w))
          = None) as Htarget.
  { unfold upsert_target. rewrite Ht. simpl. by destruct (bool_decide _). }
  assert (exists c,
             upsert_row name key_cols rec w
             = (Ret tt,
                mkWorld (<[name := norm_grid rec (ws_grid name w)
                                   ++ [project rec (norm_headers rec (ws_grid name w))]]>
                           (sheets w)) c)) as [c Hrun].
  { destruct Hcache as [Hcold|Hwarm].
    - eexists. by apply upsert_row_run_no_rows.
    - eexists. rewrite upsert_row_run_warm; [|done|by left].
      unfold upsert_result. by rewrite Htarget. }
  set (g' := norm_grid rec (ws_grid name w)
             ++ [project rec (norm_headers rec (ws_grid name w))]) in *.
  exists (mkWorld (<[name := g']> (sheets w)) c). split; [exact Hrun|].
  assert (ws_grid name (mkWorld (<[name := g']> (sheets w)) c) = g') as ->.
  { unfold ws_grid. simpl. by rewrite lookup_insert_eq. }
  split; [done|]. split.
  - intros Hg Hrec. unfold g'. rewrite Hg.
    destruct (norm_of_empty_sheet rec Hrec) as [-> ->]. done.
  - intros other Hne. simpl. by rewrite lookup_insert_ne.
Qed.

Lemma upsert_row_into_empty_table_witness :
  exists w',
    upsert_row "New" ["name"; "loc"]
               [("name", VStr "Aspirin"); ("loc", VStr "B01"); ("qty", VInt 7)]
               stock_table = (Ret tt, w') /\
    ws_grid "New" w' = [["name"; "loc"; "qty"]; ["Aspirin"; "B01"; "7"]].
Proof.
  assert (tail (ws_grid "New" stock_table) = []) as Ht by reflexivity.
  assert (cache stock_table !! "New" = None
          \/ cache stock_table !! "New" = Some (read_df_body "New" (sheets stock_table)))
    as Hc by (left; reflexivity).
  destruct (upsert_row_into_empty_table "New" ["name"; "loc"]
              [("name", VStr "Aspirin"); ("loc", VStr "B01"); ("qty", VInt 7)]
              stock_table Ht Hc) as (w' & Hrun & _ & Hnew & _).
  exists w'. split; [exact Hrun|].
  rewrite Hnew; [reflexivity|reflexivity|discriminate].
Defined.

(** ** Appending *)

(** X8.  [append_row] always returns and only adds: with a header row in
    the sheet or a field in the record, the data rows afterwards are the
    data rows before, in order, followed by the new row, and the header
    begins with the header before.  Other sheets and the cache are as
    they were. *)
Theorem append_row_keeps_rows (name : string) (rec : record) (w : world) :
  exists w',
    append_row name rec w = (Ret tt, w') /\
    (ws_grid name w <> [] \/ rec <> [] ->
     tail (ws_grid name w')
     = tail (ws_grid name w) ++ [project rec (header_of (ws_grid name w'))]
     /\ take (length (header_of (ws_grid name w))) (header_of (ws_grid name w'))
        = header_of (ws_grid name w)) /\
    (forall other, other <> name -> sheets w' !! other = sheets w !! other) /\
    cache w' = cache w.
Proof.
  eexists. split; [apply append_row_run|].
  rewrite ws_grid_set_sheet.
  split.
  - intros Hne. pose proof (norm_grid_nonempty rec _ Hne) as Hg.
    destruct (appended_grid_read rec _ Hg) as (_ & Hh & Ht).
    rewrite Hh, Ht. split; [done|].
    unfold norm_headers. by rewrite take_app_length.
  - split; [|done]. intros other Hne.
    by rewrite sheets_set_sheet, lookup_insert_ne.
Qed.

(** X9.  [append_audit] always returns and adds exactly one row of eight
    cells, in the fixed column order, with the empty string for a field
    the log lacks; fields outside the eight are dropped.  Rows already in
    the log stay as they are, a missing or empty log first gets the fixed
    header, and nothing else is touched. *)
Theorem append_audit_appends_one (log : record) (w : world) :
  let row := project log audit_headers in
  exists w',
    append_audit log w = (Ret tt, w') /\
    (ws_grid "Audit_Log" w <> [] ->
     ws_grid "Audit_Log" w' = ws_grid "Audit_Log" w ++ [row]) /\
    (ws_grid "Audit_Log" w = [] -> ws_grid "Audit_Log" w' = [audit_headers; row]) /\
    length row = 8%nat /\
    (forall j h, audit_headers !! j = Some h ->
                 row !! j = Some (str (dict_get log h (VStr "")))) /\
    (forall j h, audit_headers !! j = Some h -> h ∉ dict_keys log -> row !! j = Some "") /\
    (forall other, other <> "Audit_Log" -> sheets w' !! other = sheets w !! other) /\
    cache w' = cache w.
Proof.
  intros row. eexists. split; [apply append_audit_run|].
  rewrite ws_grid_set_sheet. fold row.
  split; [intros Hg; by destruct (ws_grid "Audit_Log" w)|].
  split; [by intros ->|].
  split; [reflexivity|].
  split; [intros j h; apply project_lookup|].
  split.
  { intros j h Hj Hn. unfold row. rewrite (project_lookup _ _ _ _ Hj).
    by rewrite dict_get_absent. }
  split; [|done]. intros other Hne. by rewrite sheets_set_sheet, lookup_insert_ne.
Qed.

(** ** The save button *)

(** X10.  The save handler, on a row whose quantity is not missing and
    with the read inside the upsert fresh or current: it upserts the
    payload under the keys name and location, clears the cache, and logs
    exactly one audit record when the old quantity text differs from the
    new one, none when they are the same text. *)
Theorem save_handler_logs_changes
        (sheet_name device user now : string) (lc : locals)
        (new_qty : Z) (new_note : string) (old_val : string) (w : world) :
  let payload := save_payload (l_name lc) (l_loc lc) new_qty new_note user now in
  sheet_name <> "Audit_Log" ->
  l_qty lc = Some old_val ->
  upsert_ready sheet_name [COL_NAME; COL_LOC] payload w ->
  exists w',
    save_handler sheet_name device user now lc new_qty new_note w = (Ret tt, w') /\
    ws_grid sheet_name w'
    = upsert_result [COL_NAME; COL_LOC] payload (ws_grid sheet_name w) /\
    cache w' = ∅ /\
    (old_val = str (VInt new_qty) ->
     sheets w' !! "Audit_Log" = sheets w !! "Audit_Log") /\
    (old_val <> str (VInt new_qty) ->
     ws_grid "Audit_Log" w'
     = audit_base (ws_grid "Audit_Log" w)
       ++ [[now; device; extract_zone (Some (l_loc lc)); l_name lc; COL_QTY;
            old_val; str (VInt new_qty); user]]).
Proof.
  intros payload Hsheet Hqty Hready.
  destruct (upsert_row_run_ready _ _ _ _ Hready) as [c Hrun].
  unfold save_handler. rewrite Hqty.
  assert (str_or_empty (Some old_val) = Ret old_val) as Hold.
  { unfold str_or_empty. by destruct (String.eqb_spec old_val "") as [->|]. }
  erewrite bind_run; [|unfold lift; by rewrite Hold].
  fold payload. erewrite bind_run by exact Hrun.
  destruct (String.eqb_spec old_val (str (VInt new_qty))) as [Heq|Hne]; cbn [negb].
  - erewrite bind_run by reflexivity.
    eexists. split; [reflexivity|]. unfold ws_grid. simpl.
    rewrite lookup_insert_eq. split; [done|]. split; [done|].
    split; [intros _; by rewrite lookup_insert_ne|]. done.
  - erewrite bind_run by apply append_audit_run.
    eexists. split; [reflexivity|]. unfold ws_grid. simpl.
    rewrite lookup_insert_ne by done. rewrite lookup_insert_eq.
    split; [done|]. split; [done|]. split; [done|].
    intros _. rewrite lookup_insert_eq. simpl.
    by rewrite lookup_insert_ne.
Qed.

Lemma save_handler_logs_changes_witness :
  exists w',
    save_handler "T" "21" "Bob" "2024-05-01 09:00:00"
                 (mkLocals "Aspirin" "B01" (Some "5") "" "" "") 5 "ok" stock_table_named
    = (Ret tt, w') /\
    cache w' = ∅ /\
    sheets w' !! "Audit_Log" = None.
Proof.
  assert ("T" <> "Audit_Log") as Hsheet by discriminate.
  assert (upsert_ready "T" [COL_NAME; COL_LOC]
            (save_payload "Aspirin" "B01" 5 "ok" "Bob" "2024-05-01 09:00:00")
            stock_table_named) as Hready
    by (left; split; vm_compute; reflexivity).
  destruct (save_handler_logs_changes "T" "21" "Bob" "2024-05-01 09:00:00"
              (mkLocals "Aspirin" "B01" (Some "5") "" "" "") 5 "ok" "5"
              stock_table_named Hsheet eq_refl Hready)
    as (w' & Hrun & _ & Hc & Hsame & _).
  exists w'. split; [exact Hrun|]. split; [exact Hc|].
  rewrite Hsame; reflexivity.
Defined.

Lemma read_df_sheets name w :
  exists df w1, read_df name w = (Ret df, w1) /\ sheets w1 = sheets w.
Proof.
  unfold read_df. destruct (cache w !! name) as [df|]; eauto.
Qed.

Lemma bind_lift {A B} (o : outcome A) (f : A -> M B) w :
  bind (lift o) f w
  = match o with
    | Ret a => f a w
    | Raise e => (Raise e, w)
    | Hang => (Hang, w)
    end.
Proof. by destruct o. Qed.

Lemma bind_ret_tt (m : M unit) w : bind m (fun _ => ret tt) w = m w.
Proof. unfold bind, ret. by destruct (m w) as [[[]| |] w']. Qed.

Lemma insert_by_elem {A} (le : A -> A -> bool) x y l :
  y ∈ insert_by le x l -> y = x \/ y ∈ l.
Proof.
  induction l as [|z l IH]; simpl.
  - intros H%list_elem_of_singleton. by left.
  - destruct (le x z).
    + intros [->|H]%elem_of_cons; [by left|by right].
    + intros [->|H]%elem_of_cons; [right; left|].
      destruct (IH H) as [->|H']; [by left|right; by right].
Qed.

Lemma sort_by_elem {A} (le : A -> A -> bool) y l : y ∈ sort_by le l -> y ∈ l.
Proof.
  induction l as [|x l IH]; simpl; [done|].
  intros [->|H]%insert_by_elem; [left|right; by apply IH].
Qed.

Lemma select_rows_elem {A} (l : list A) mask y : y ∈ select_rows l mask -> y ∈ l.
Proof.
  revert mask. induction l as [|x l IH]; intros [|b mask]; simpl;
    try (by intros ?%elem_of_nil).
  destruct b.
  - intros [->|H]%elem_of_cons; [left|right; by eapply IH].
  - intros H. right. by eapply IH.
Qed.

Lemma zip_seq_lookup {A} (l : list A) n i c :
  (i, c) ∈ zip (seq n (length l)) l -> l !! (i - n)%nat = Some c /\ (n <= i)%nat.
Proof.
  revert n. induction l as [|x l IH]; intros n; simpl.
  - by intros ?%elem_of_nil.
  - intros [[= -> ->]|H]%elem_of_cons.
    + by rewrite Nat.sub_diag.
    + destruct (IH _ H) as [Hl Hn]. split; [|lia].
      replace (i - n)%nat with (S (i - S n)) by lia. done.
Qed.

Lemma indexed_lookup df i c : (i, c) ∈ indexed df -> records df !! i = Some c.
Proof.
  intros H. destruct (zip_seq_lookup _ _ _ _ H) as [Hl _].
  by rewrite Nat.sub_0_r in Hl.
Qed.

Lemma zone_view_rows df z rs :
  zone_view df z = Ret rs -> forall x, x ∈ rs -> x ∈ indexed df.
Proof.
  unfold zone_view. destruct (frame_empty df).
  - destruct (frame_col df ZONE); [|done..]. by intros [= <-].
  - destruct (frame_col df COL_LOC) as [locs| |]; [|done..].
    destruct (find_cols ZONE (columns df) 0) as [|? [|? ?]]; [| |done];
      intros [= <-] x Hx; by eapply select_rows_elem.
Qed.

Lemma hide_view_rows cols rs rs' :
  hide_view cols rs = Ret rs' -> forall x, x ∈ rs' -> x ∈ rs.
Proof.
  unfold hide_view. destruct (bool_decide (rs = [])); [by intros [= <-]|].
  destruct (frame_text_col _ _); [|done..].
  intros [= <-] x Hx. by eapply select_rows_elem.
Qed.

Lemma sort_view_rows cols rs rs' :
  sort_view cols rs = Ret rs' -> forall x, x ∈ rs' -> x ∈ rs.
Proof.
  unfold sort_view. destruct (_ || _); [by intros [= <-]|].
  destruct (find_cols COL_LOC cols 0) as [|i [|? ?]];
    destruct (find_cols COL_NAME cols 0) as [|j [|? ?]]; try done.
  intros [= <-] x Hx. by eapply sort_by_elem.
Qed.

(** The row loop writes at the pressed row or not at all. *)
Lemma render_rows_save sheet_name device user now idx new_qty new_note cols rs w :
  let r := render_rows sheet_name device user now
                       (SaveButton idx new_qty new_note) cols rs w in
  r.2 = w
  \/ exists cells lc,
       (idx, cells) ∈ rs /\
       row_locals (zip cols cells) = Ret lc /\
       can_edit (l_owner_existing lc) user = true /\
       r = save_handler sheet_name device user now lc new_qty new_note w.
Proof.
  induction rs as [|[i cells] rs IH]; [by left|].
  cbn [render_rows]. rewrite bind_lift.
  destruct (row_locals (zip cols cells)) as [lc| |] eqn:Elc; [|by left..].
  rewrite bind_lift.
  destruct (init_qty (l_qty lc)); [|by left..].
  destruct (bool_decide_reflect (idx = i)) as [->|Hne]; simpl.
  - destruct (can_edit (l_owner_existing lc) user) eqn:Egate.
    + right. exists cells, lc. split; [left|done].
    + destruct IH as [IH|(c' & lc' & Hin & IH)]; [by left|].
      right. exists c', lc'. split; [by right|done].
  - destruct IH as [IH|(c' & lc' & Hin & IH)]; [by left|].
    right. exists c', lc'. split; [by right|done].
Qed.

(** X11.  A run of the script with the save button of a row pressed, the
    zone and the check boxes as the operator left them.  Either no sheet
    is changed, or the operator has a name, the row is in the table, its
    values were bound, the gate held for its owner, and what the run did
    is what the handler does with the values of that row after the
    table was read.  The gate looks at the row the button stands on; the
    handler writes to the first stored row of that name and location.
    With two rows of one name and location, Alice's first, the save Bob
    presses on his own row overwrites the row of Alice, for which the
    gate is closed to him. *)
Theorem page_save_respects_gate
        (sheet_name device user now : string) (v : view) (idx : nat)
        (new_qty : Z) (new_note : string) (w : world) :
  let r := script_run sheet_name device user now v
                      (SaveButton idx new_qty new_note) w in
  (sheets r.2 = sheets w
   \/ (user <> "" /\
       exists df w1 row lc,
         read_df sheet_name w = (Ret df, w1) /\
         frame_row (replace_blank df) idx = Some row /\
         row_locals row = Ret lc /\
         can_edit (l_owner_existing lc) user = true /\
         r = save_handler sheet_name device user now lc new_qty new_note w1)) /\
  can_edit "Alice" "Bob" = false /\
  (page_save (sheet_name_of "21") "21" "Bob" now 1 9 "c" twin_rows).1 = Ret tt /\
  ws_grid (sheet_name_of "21")
          (page_save (sheet_name_of "21") "21" "Bob" now 1 9 "c" twin_rows).2
  = [[COL_NAME; COL_LOC; COL_QTY; COL_NOTE; COL_OWNER; COL_TIME];
     ["Aspirin"; "B01"; "9"; "c"; "Bob"; now];
     ["Aspirin"; "B01"; "6"; "b"; "Bob"; "2024-05-01 08:30:00"]].
Proof.
  intros r. split; [|repeat split; vm_compute; reflexivity].
  assert (r = script_run sheet_name device user now v
                         (SaveButton idx new_qty new_note) w) as Hr by reflexivity.
  clearbody r. unfold script_run in Hr.
  destruct (String.eqb_spec user "") as [->|Huser]; [left; by rewrite Hr|].
  destruct (read_df_sheets sheet_name w) as (df0 & w1 & Hread & Hsh).
  unfold bind at 1 in Hr. rewrite Hread in Hr.
  set (df := if frame_empty df0 then df0 else replace_blank df0) in *.
  rewrite bind_lift in Hr.
  destruct (zones df) as [zs| |]; [|left; by rewrite Hr..].
  rewrite bind_lift in Hr.
  destruct (zone_view df (selected zs (v_zone v))) as [view1| |] eqn:E1;
    [|left; by rewrite Hr..].
  rewrite bind_lift in Hr.
  destruct (if v_hide v then hide_view (columns df) view1 else Ret view1)
    as [view2| |] eqn:E2; [|left; by rewrite Hr..].
  rewrite bind_lift in Hr.
  destruct (if v_sort v then sort_view (columns df) view2 else Ret view2)
    as [view3| |] eqn:E3; [|left; by rewrite Hr..].
  rewrite bind_lift in Hr. destruct (done_count df); [|left; by rewrite Hr..].
  rewrite bind_ret_tt in Hr.
  destruct (render_rows_save sheet_name device user now idx new_qty new_note
              (columns df) view3 w1) as [Hsame|(cells & lc & Hin & Hlc & Hgate & Hrun)].
  { left. by rewrite Hr, Hsame. }
  right. split; [done|].
  assert ((idx, cells) ∈ indexed df) as Hidx.
  { eapply zone_view_rows; [exact E1|].
    assert ((idx, cells) ∈ view2) as H2.
    { destruct (v_sort v); [by eapply sort_view_rows|by injection E3 as <-]. }
    destruct (v_hide v); [by eapply hide_view_rows|by injection E2 as <-]. }
  apply indexed_lookup in Hidx.
  assert (df = replace_blank df0) as Hdf.
  { unfold df in *. destruct (frame_empty df0) eqn:Ee; [|done].
    exfalso. unfold zone_view in E1. rewrite Ee in E1.
    destruct (frame_col df0 ZONE) as [col| |] eqn:Ez; [|done..].
    injection E1 as <-.
    assert ((idx, cells) ∈ indexed df0) as Hin0.
    { assert ((idx, cells) ∈ view2) as H2.
      { destruct (v_sort v); [by eapply sort_view_rows|by injection E3 as <-]. }
      destruct (v_hide v); [by eapply hide_view_rows|by injection E2 as <-]. }
    apply indexed_lookup in Hin0.
    unfold frame_empty in Ee. apply orb_true_iff in Ee as [Ee|Ee];
      apply bool_decide_eq_true in Ee.
    - unfold frame_col in Ez. by rewrite Ee in Ez.
    - by rewrite Ee in Hin0. }
  exists df0, w1, (zip (columns df) cells), lc.
  split; [done|]. split.
  { rewrite <- Hdf. unfold frame_row. by rewrite Hidx. }
  split; [exact Hlc|]. split; [exact Hgate|]. by rewrite Hr.
Qed.

(** ** Binding the values of a row *)

Lemma str_or_empty_some s : str_or_empty (Some s) = Ret s.
Proof. unfold str_or_empty. by destruct (String.eqb_spec s "") as [->|]. Qed.

Lemma row_locals_ok row name loc note owner time :
  row_get row COL_NAME "" = Some name ->
  row_get row COL_LOC "" = Some loc ->
  row_get row COL_NOTE "" = Some note ->
  row_get row COL_OWNER "" = Some owner ->
  row_get row COL_TIME "" = Some time ->
  row_locals row = Ret (mkLocals name loc (row_get row COL_QTY "") note owner time).
Proof.
  intros H1 H2 H3 H4 H5. unfold row_locals.
  by rewrite H1, H2, H3, H4, H5, !str_or_empty_some.
Qed.

Lemma row_locals_raises row :
  row_get row COL_NAME "" = None \/ row_get row COL_LOC "" = None
  \/ row_get row COL_NOTE "" = None \/ row_get row COL_OWNER "" = None
  \/ row_get row COL_TIME "" = None ->
  row_locals row = Raise TypeError.
Proof.
  intros H. unfold row_locals.
  destruct (row_get row COL_NAME "") as [s1|]; [rewrite str_or_empty_some|done].
  destruct (row_get row COL_LOC "") as [s2|]; [rewrite str_or_empty_some|done].
  destruct (row_get row COL_NOTE "") as [s3|]; [rewrite str_or_empty_some|done].
  destruct (row_get row COL_OWNER "") as [s4|]; [rewrite str_or_empty_some|done].
  destruct (row_get row COL_TIME "") as [s5|]; [rewrite str_or_empty_some|done].
  destruct H as [H|[H|[H|[H|H]]]]; done.
Qed.

(** X12.  The values of a row are bound exactly when none of its name,
    location, note, operator and time cells is missing: then each name
    holds the cell's text (the empty string for a column the frame does
    not have) and the quantity is passed on as it is, missing or not.
    When one of the five is missing the binding raises [TypeError]. *)
Theorem row_locals_needs_text (row : Series) :
  (forall name loc note owner time,
      row_get row COL_NAME "" = Some name ->
      row_get row COL_LOC "" = Some loc ->
      row_get row COL_NOTE "" = Some note ->
      row_get row COL_OWNER "" = Some owner ->
      row_get row COL_TIME "" = Some time ->
      row_locals row
      = Ret (mkLocals name loc (row_get row COL_QTY "") note owner time)) /\
  (row_get row COL_NAME "" = None \/ row_get row COL_LOC "" = None
   \/ row_get row COL_NOTE "" = None \/ row_get row COL_OWNER "" = None
   \/ row_get row COL_TIME "" = None ->
   row_locals row = Raise TypeError) /\
  ((exists lc, row_locals row = Ret lc) \/ row_locals row = Raise TypeError).
Proof.
  split; [intros; by apply row_locals_ok|].
  split; [apply row_locals_raises|].
  destruct (row_get row COL_NAME "") as [s1|] eqn:E1;
    [|right; apply row_locals_raises; rewrite E1; tauto].
  destruct (row_get row COL_LOC "") as [s2|] eqn:E2;
    [|right; apply row_locals_raises; rewrite E2; tauto].
  destruct (row_get row COL_NOTE "") as [s3|] eqn:E3;
    [|right; apply row_locals_raises; rewrite E3; tauto].
  destruct (row_get row COL_OWNER "") as [s4|] eqn:E4;
    [|right; apply row_locals_raises; rewrite E4; tauto].
  destruct (row_get row COL_TIME "") as [s5|] eqn:E5;
    [|right; apply row_locals_raises; rewrite E5; tauto].
  left. eexists. by apply row_locals_ok.
Qed.

(** ** The text of a number *)

Lemma uint_text_plain d :
  forallb is_digit (list_ascii_of_string (NilEmpty.string_of_uint d)) = true.
Proof. induction d; simpl; auto. Qed.

Lemma uint_text_nonempty d :
  d <> Decimal.Nil -> NilEmpty.string_of_uint d <> "".
Proof. destruct d; simpl; congruence. Qed.

Lemma nat_text d :
  d <> Decimal.Nil -> NilZero.string_of_uint d = NilEmpty.string_of_uint d.
Proof. by destruct d. Qed.

Lemma to_int_nonneg z :
  0 <= z -> exists d, Z.to_int z = Decimal.Pos d /\ d <> Decimal.Nil /\ Z.of_uint d = z.
Proof.
  intros Hz. destruct z as [|p|p]; [| |lia].
  - exists (Decimal.D0 Decimal.Nil). done.
  - exists (Pos.to_uint p). split; [done|].
    split; [apply DecimalPos.Unsigned.to_uint_nonnil|].
    unfold Z.of_uint. by rewrite DecimalPos.Unsigned.of_to.
Qed.

Lemma str_int_plain z :
  forallb plain (list_ascii_of_string (str (VInt z))) = true /\ str (VInt z) <> "".
Proof.
  assert (forall d, forallb plain (list_ascii_of_string (NilZero.string_of_uint d)) = true
                    /\ NilZero.string_of_uint d <> "") as Hu.
  { intros d. assert (d = Decimal.Nil \/ d <> Decimal.Nil) as [->|Hd]
      by (destruct d; (by left) || (by right)); [done|].
    rewrite nat_text by done. split; [|by apply uint_text_nonempty].
    pose proof (uint_text_plain d) as H.
    rewrite forallb_forall in *. intros c Hc. unfold plain. by rewrite H. }
  unfold str. destruct (Z.to_int z) as [d|d]; simpl.
  - apply Hu.
  - split; [apply Hu|done].
Qed.

Lemma plain_byte c : plain c = true -> byte c < 128 /\ isspace (byte c) = false.
Proof.
  unfold plain, is_digit, byte. intros H.
  assert (48 <= nat_of_ascii c <= 57 \/ nat_of_ascii c = 45)%nat as Hc.
  { apply orb_true_iff in H as [H|H].
    - apply andb_true_iff in H as [H1 H2]. apply Nat.leb_le in H1, H2. lia.
    - apply Ascii.eqb_eq in H as ->. by right. }
  split; [lia|]. apply not_true_is_false. rewrite isspace_spec. lia.
Qed.

Lemma rstrip_plain s :
  forallb plain (list_ascii_of_string s) = true -> rstrip s = s.
Proof.
  induction s as [|c s IH]; [done|]. cbn [list_ascii_of_string forallb].
  intros [Hc Hs]%andb_true_iff. destruct (plain_byte c Hc) as [H1 H2].
  rewrite rstrip_keeps by done. by rewrite IH.
Qed.

Lemma strip_plain s :
  forallb plain (list_ascii_of_string s) = true -> strip s = s.
Proof.
  intros H. destruct s as [|c s]; [done|].
  pose proof H as H'. cbn [list_ascii_of_string forallb] in H'.
  apply andb_true_iff in H' as [Hc Hs]. destruct (plain_byte c Hc) as [H1 H2].
  rewrite strip_keeps by done. by rewrite rstrip_plain.
Qed.

Lemma stored_int z : blank_to_na (Some (str (VInt z))) = Some (str (VInt z)).
Proof.
  destruct (str_int_plain z) as [_ Hne]. unfold blank_to_na.
  by destruct (String.eqb_spec (str (VInt z)) "").
Qed.

Lemma code_points_ascii c s :
  byte c < 128 -> code_points (String c s) = cons (byte c) <$> code_points s.
Proof.
  intros H. unfold code_points. cbn [String.length code_points_loop].
  by rewrite next_char_ascii.
Qed.

(** The text of a numeral is made of decimal digits, and they write it. *)
Lemma uint_text_value d :
  exists cs,
    code_points (NilEmpty.string_of_uint d) = Some cs /\
    forallb char_isdigit cs = true /\
    (d <> Decimal.Nil -> cs <> []) /\
    exists ds, mapM digit_value cs = Some ds /\ foldr digit_cons Decimal.Nil ds = d.
Proof.
  induction d as [|d IH|d IH|d IH|d IH|d IH|d IH|d IH|d IH|d IH|d IH];
    [exists []; split; [done|]; split; [done|]; split; [done|]; by exists []|..];
    destruct IH as (cs & Hc & Hd & _ & ds & Hm & Hf);
    cbn [NilEmpty.string_of_uint];
    (rewrite code_points_ascii by (vm_compute; reflexivity));
    rewrite Hc;
    (eexists; split; [reflexivity|]);
    (split; [cbn [forallb]; rewrite Hd; vm_compute; reflexivity|]);
    (split; [done|]);
    (eexists (_ :: ds); split;
     [apply mapM_Some_2; constructor; [vm_compute; reflexivity|by apply mapM_Some_1]
     |simpl; by rewrite Hf]).
Qed.

Lemma init_qty_stored n :
  0 <= n -> init_qty (blank_to_na (Some (str (VInt n)))) = Ret n.
Proof.
  intros Hn. rewrite stored_int. unfold init_qty.
  destruct (str_int_plain n) as [Hplain Hne].
  rewrite (strip_plain _ Hplain).
  destruct (to_int_nonneg n Hn) as (d & Hd & Hnil & Hval).
  unfold str in *. rewrite Hd in *. simpl in *. rewrite nat_text in * by done.
  destruct (uint_text_value d) as (cs & Hc & Hdig & Hcs & ds & Hm & Hf).
  specialize (Hcs Hnil). unfold isdigit, py_int. rewrite Hc.
  destruct cs as [|c cs]; [done|]. by rewrite Hdig, Hm, Hf, Hval.
Qed.

(** X15.  The quantity box opens with the number that was saved: for a
    quantity n >= 0, below the 4300 digits CPython allows the text of an
    [int], the text [str(n)] written to the sheet is read back by
    [init_qty] as n, and so is a text of decimal digits of any script,
    white space around it aside.  A missing cell, the empty default, and
    a text that [isdigit] turns down (a sign, a point, a letter) open the
    box at 0.  A text of digits of which one is no decimal digit, a
    superscript two for one, passes [isdigit] and makes [int] raise
    [ValueError]. *)
Theorem init_qty_reads_back_saved (n : Z) :
  0 <= n < 10 ^ 4300 ->
  init_qty (blank_to_na (Some (str (VInt n)))) = Ret n /\
  init_qty None = Ret 0 /\
  init_qty (Some "") = Ret 0 /\
  (forall s, isdigit (strip s) = false -> init_qty (Some s) = Ret 0) /\
  (forall s c cs,
      code_points (strip s) = Some (c :: cs) ->
      forallb char_isdigit (c :: cs) = true ->
      Exists (fun x => digit_value x = None) (c :: cs) ->
      init_qty (Some s) = Raise ValueError) /\
  init_qty (Some " 007 ") = Ret 7 /\
  init_qty (Some "１２") = Ret 12 /\
  init_qty (Some "²") = Raise ValueError /\
  init_qty (Some "1²") = Raise ValueError /\
  init_qty (Some "-3") = Ret 0 /\
  init_qty (Some "1.5") = Ret 0 /\
  init_qty (Some "12a") = Ret 0.
Proof.
  intros [Hn _]. split; [by apply init_qty_stored|].
  split; [done|]. split; [done|].
  split; [intros s Hs; unfold init_qty; by rewrite Hs|].
  split.
  { intros s c cs Hc Hd Hx. unfold init_qty, isdigit, py_int.
    rewrite Hc, Hd. by rewrite (mapM_None_2 _ _ Hx). }
  repeat split; vm_compute; reflexivity.
Qed.

Lemma init_qty_reads_back_saved_witness :
  0 <= 12 < 10 ^ 4300 /\ init_qty (blank_to_na (Some (str (VInt 12)))) = Ret 12.
Proof.
  assert (0 <= 12 < 10 ^ 4300) as H.
  { split; [lia|]. apply Z.lt_le_trans with (10 ^ 2); [lia|].
    apply Z.pow_le_mono_r; lia. }
  split; [exact H|]. by apply (init_qty_reads_back_saved 12).
Defined.

(** ** What the next render binds *)

Lemma row_get_stored rec hdr k d :
  k ∈ hdr ->
  row_get (zip hdr (as_read (project rec hdr))) k d
  = blank_to_na (Some (str (dict_get rec k (VStr "")))).
Proof.
  induction hdr as [|h hs IH]; intros Hin; [by apply elem_of_nil in Hin|].
  simpl. destruct (String.eqb_spec h k) as [->|Hne]; [done|].
  apply elem_of_cons in Hin as [->|Hin]; [done|]. by apply IH.
Qed.

Lemma read_df_body_lookup name (sh1 sh2 : gmap string grid) :
  sh1 !! name = sh2 !! name -> read_df_body name sh1 = read_df_body name sh2.
Proof. intros H. unfold read_df_body. by rewrite H. Qed.

Lemma frame_row_stored name sh (g' : grid) i proj :
  g' <> [] ->
  row_width g' = length (header_of g') ->
  tail g' !! i = Some proj ->
  length proj = length (header_of g') ->
  frame_row (read_df_body name (<[name := g']> sh)) i
  = Some (zip (header_of g') (as_read proj)).
Proof.
  intros Hg Hw Hi Hlen. rewrite read_df_body_rows by done.
  unfold frame_row. simpl. rewrite list_lookup_fmap, Hi. simpl.
  rewrite pad_ge by lia. done.
Qed.

Lemma add_handler_run sheet_name device user now new_name new_loc new_qty_val new_note_val w :
  new_name <> "" -> new_loc <> "" ->
  let payload :=
    [ (COL_NAME, VStr (strip new_name)); (COL_LOC, VStr (strip new_loc));
      (COL_QTY, VInt new_qty_val); (COL_NOTE, VStr (strip new_note_val));
      (COL_OWNER, VStr user); (COL_TIME, VStr now) ] in
  exists A,
    add_handler sheet_name device user now new_name new_loc new_qty_val new_note_val w
    = (Ret tt,
       mkWorld (<["Audit_Log" := A]>
                  (<[sheet_name := norm_grid payload (ws_grid sheet_name w)
                                   ++ [project payload (norm_headers payload (ws_grid sheet_name w))]]>
                     (sheets w))) ∅).
Proof.
  intros Hname Hloc payload. unfold add_handler.
  assert (String.eqb new_name "" || String.eqb new_loc "" = false) as ->.
  { apply orb_false_iff. split; by apply String.eqb_neq. }
  fold payload.
  erewrite bind_run by apply append_row_run.
  erewrite bind_run by apply append_audit_run.
  eexists. reflexivity.
Qed.

Lemma payload_columns rec (g : grid) k : k ∈ dict_keys rec -> k ∈ norm_headers rec g.
Proof. intros H. apply norm_headers_covers. by right. Qed.

(** X13.  After the add button, the next read of the sheet ends with the
    new row.  When the trimmed name, location and note, the operator and
    the time stamp are all non-empty, the next render binds the row to
    exactly these values, the quantity to the text of the number, and the
    operator as the owner.  When one of them is empty (the note may be
    left empty on the form) its cell is blank and binding the row raises
    [TypeError]. *)
Theorem added_row_on_next_render
        (sheet_name device user now new_name new_loc : string)
        (new_qty_val : Z) (new_note_val : string) (w : world) :
  new_name <> "" -> new_loc <> "" -> sheet_name <> "Audit_Log" ->
  let idx := length (tail (ws_grid sheet_name w)) in
  exists w1 df w2 row,
    add_handler sheet_name device user now new_name new_loc new_qty_val new_note_val w
    = (Ret tt, w1) /\
    read_df sheet_name w1 = (Ret df, w2) /\
    length (records df) = S idx /\
    frame_row df idx = Some row /\
    (strip new_name <> "" -> strip new_loc <> "" -> strip new_note_val <> "" ->
     user <> "" -> now <> "" ->
     row_locals row
     = Ret (mkLocals (strip new_name) (strip new_loc) (Some (str (VInt new_qty_val)))
                     (strip new_note_val) user now)) /\
    (strip new_name = "" \/ strip new_loc = "" \/ strip new_note_val = ""
     \/ user = "" \/ now = "" ->
     row_locals row = Raise TypeError).
Proof.
  intros Hname Hloc Hsheet idx.
  destruct (add_handler_run sheet_name device user now new_name new_loc
              new_qty_val new_note_val w Hname Hloc) as [A Hrun].
  set (payload :=
         [ (COL_NAME, VStr (strip new_name)); (COL_LOC, VStr (strip new_loc));
           (COL_QTY, VInt new_qty_val); (COL_NOTE, VStr (strip new_note_val));
           (COL_OWNER, VStr user); (COL_TIME, VStr now) ]) in *.
  set (g0 := ws_grid sheet_name w) in *.
  set (hdr := norm_headers payload g0) in *.
  set (g' := norm_grid payload g0 ++ [project payload hdr]) in *.
  assert (norm_grid payload g0 <> []) as Hg
    by (apply norm_grid_nonempty; right; discriminate).
  destruct (appended_grid_read payload g0 Hg) as (Hw & Hh & Ht).
  fold hdr g' in Hw, Hh, Ht.
  assert (g' <> []) as Hg' by (unfold g'; by destruct (norm_grid payload g0)).
  set (w1 := mkWorld (<["Audit_Log" := A]> (<[sheet_name := g']> (sheets w))) ∅) in *.
  assert (read_df_body sheet_name (sheets w1)
          = read_df_body sheet_name (<[sheet_name := g']> (sheets w))) as Hbody.
  { apply read_df_body_lookup. unfold w1. simpl. by rewrite lookup_insert_ne. }
  set (row := zip hdr (as_read (project payload hdr))).
  eexists w1, _, _, row. split; [exact Hrun|].
  split; [apply read_df_cold; apply lookup_empty|].
  rewrite Hbody.
  split.
  { rewrite read_df_body_rows by done. simpl. rewrite length_fmap, Ht, length_app.
    simpl. unfold idx. lia. }
  split.
  { unfold row. rewrite <- Hh at 1. apply frame_row_stored; try done.
    - by rewrite Hw, Hh.
    - rewrite Ht. by apply list_lookup_middle.
    - by rewrite Hh, project_length. }
  assert (forall k, k ∈ dict_keys payload ->
                    row_get row k "" = blank_to_na (Some (str (dict_get payload k (VStr "")))))
    as Hget.
  { intros k Hk. apply row_get_stored. by apply payload_columns. }
  assert (row_get row COL_NAME "" = blank_to_na (Some (strip new_name))) as Hn
    by (rewrite Hget; [done|set_solver]).
  assert (row_get row COL_LOC "" = blank_to_na (Some (strip new_loc))) as Hl
    by (rewrite Hget; [done|set_solver]).
  assert (row_get row COL_QTY "" = Some (str (VInt new_qty_val))) as Hq
    by (rewrite Hget; [apply stored_int|set_solver]).
  assert (row_get row COL_NOTE "" = blank_to_na (Some (strip new_note_val))) as Ho
    by (rewrite Hget; [done|set_solver]).
  assert (row_get row COL_OWNER "" = blank_to_na (Some user)) as Hu
    by (rewrite Hget; [done|set_solver]).
  assert (row_get row COL_TIME "" = blank_to_na (Some now)) as Hti
    by (rewrite Hget; [done|set_solver]).
  assert (forall s, s <> "" -> blank_to_na (Some s) = Some s) as Hfull.
  { intros s Hs. simpl. by destruct (String.eqb_spec s ""). }
  assert (forall s, s = "" -> blank_to_na (Some s) = None) as Hblank
    by (by intros s ->).
  split.
  - intros H1 H2 H3 H4 H5. rewrite <- Hq.
    apply row_locals_ok; [rewrite Hn|rewrite Hl|rewrite Ho|rewrite Hu|rewrite Hti];
      by apply Hfull.
  - intros H. apply row_locals_raises. rewrite Hn, Hl, Ho, Hu, Hti.
    destruct H as [H|[H|[H|[H|H]]]]; rewrite (Hblank _ H); tauto.
Qed.

Lemma added_row_on_next_render_witness :
  exists w1 df w2 row,
    add_handler (sheet_name_of "21") "21" "Bob" "2024-05-01 09:00:00"
                "Aspirin" "B01" 3 "" (mkWorld ∅ ∅) = (Ret tt, w1) /\
    read_df (sheet_name_of "21") w1 = (Ret df, w2) /\
    frame_row df 0 = Some row /\
    row_locals row = Raise TypeError.
Proof.
  assert ("Aspirin" <> "") as Hname by discriminate.
  assert ("B01" <> "") as Hloc by discriminate.
  assert (sheet_name_of "21" <> "Audit_Log") as Hsheet by (vm_compute; discriminate).
  destruct (added_row_on_next_render (sheet_name_of "21") "21" "Bob"
              "2024-05-01 09:00:00" "Aspirin" "B01" 3 "" (mkWorld ∅ ∅)
              Hname Hloc Hsheet)
    as (w1 & df & w2 & row & Hrun & Hread & _ & Hrow & _ & Hraise).
  exists w1, df, w2, row. split; [exact Hrun|]. split; [exact Hread|].
  split; [exact Hrow|]. apply Hraise. right. right. left. reflexivity.
Defined.





(** ** Progress and the hide-completed filter *)

Lemma blank_mask_cells col : blank_mask col = cell_blank <$> col.
Proof.
  unfold blank_mask, isna, eq_text, str_strip, astype_str.
  induction col as [|c col IH]; [done|].
  rewrite !fmap_cons. simpl. rewrite <- IH. f_equal. by destruct c.
Qed.

Lemma select_count {A} (rows : list A) (mask : list bool) :
  length mask = length rows ->
  (length (select_rows rows mask) + count_true (negb <$> mask) = length rows)%nat.
Proof.
  revert mask. induction rows as [|r rows IH]; intros [|b mask] Hlen; try done.
  injection Hlen as Hlen. specialize (IH mask Hlen).
  unfold count_true in *. rewrite fmap_cons. destruct b; cbn [select_rows negb].
  - rewrite filter_cons_False by done. cbn [length]. lia.
  - rewrite filter_cons_True by done. cbn [length]. lia.
Qed.

(** X16.  With one quantity column in the frame, every row is either
    kept by the hide-completed filter or counted as done, never both: the
    rows kept and the done count add up to the total.  A cell is kept
    when it is missing or white space only, so a saved number, 0
    included, counts as done.  Without a quantity column the done count
    is 0, while the filter on a frame with rows raises [KeyError]. *)
Theorem hidden_and_done_add_up (df : DataFrame) :
  ((exists j, find_cols COL_QTY (columns df) 0 = [j]) ->
   exists kept done,
     hide_completed df = Ret kept /\ done_count df = Ret done /\
     (length (records kept) + done = total_count df)%nat /\
     (done <= total_count df)%nat) /\
  (forall col, blank_mask col = cell_blank <$> col) /\
  (forall q, cell_blank (blank_to_na (Some (str (VInt q)))) = false) /\
  (COL_QTY ∉ columns df ->
   done_count df = Ret 0%nat /\
   (frame_empty df = false -> hide_completed df = Raise KeyError)).
Proof.
  split; [|split; [apply blank_mask_cells|split]].
  - intros [j Hj]. unfold hide_completed, done_count, total_count, frame_text_col, frame_col.
    rewrite Hj.
    assert (COL_QTY ∈ columns df) as Hin
      by (apply find_cols_single in Hj; by eapply list_elem_of_lookup_2).
    rewrite (bool_decide_eq_true_2 _ Hin), andb_true_r.
    destruct (frame_empty df) eqn:Ee; simpl.
    + exists df, 0%nat. split; [done|]. split; [done|].
      unfold frame_empty in Ee. apply orb_true_iff in Ee as [Ee|Ee];
        apply bool_decide_eq_true in Ee.
      * rewrite Ee in Hin. by apply elem_of_nil in Hin.
      * rewrite Ee. simpl. lia.
    + eexists _, _. split; [reflexivity|]. split; [reflexivity|]. simpl.
      set (col := (fun r : list cell => default None (r !! j)) <$> records df).
      assert (length (blank_mask col) = length (records df)) as Hlen
        by (rewrite blank_mask_cells; unfold col; by rewrite !length_fmap).
      pose proof (select_count (records df) (blank_mask col) Hlen). lia.
  - intros q. rewrite stored_int. unfold cell_blank.
    destruct (str_int_plain q) as [Hplain Hne].
    rewrite (strip_plain _ Hplain).
    by destruct (String.eqb_spec (str (VInt q)) "").
  - intros Hout. unfold done_count, hide_completed, frame_text_col, frame_col.
    rewrite (bool_decide_eq_false_2 _ Hout), andb_false_r.
    split; [done|]. intros ->. by rewrite find_cols_absent.
Qed.

(** ** The sheet of a device *)

Lemma prefix_append p x : String.prefix p (p +:+ x) = true.
Proof.
  induction p as [|a p IH]; [by destruct x|].
  rewrite append_cons. cbn [String.prefix].
  by destruct (ascii_dec a a).
Qed.

(** X17.  Whatever the device parameter, the sheet the page works on has
    a name that begins with the device prefix, so it is never the audit
    log; with no parameter it is the sheet of device 21. *)
Theorem sheet_name_never_audit_log (param : option string) :
  sheet_name_of (device_of param) <> "Audit_Log" /\
  String.prefix "分表-" (sheet_name_of (device_of param)) = true /\
  sheet_name_of (device_of None) = "分表-21台".
Proof.
  split; [|split; [|reflexivity]].
  - unfold sheet_name_of. destruct (existsb _ _); discriminate.
  - unfold sheet_name_of. destruct (existsb _ _); apply prefix_append.
Qed.

(** ** A negative column number *)

(** X18.  For a negative argument the loop of [_col_letter] never reaches
    0: however many times it goes round, it has not returned. *)
Theorem col_letter_negative_never_returns (n : Z) :
  n < 0 ->
  (forall fuel s, col_letter_loop fuel n s = None) /\ _col_letter n = None.
Proof.
  intros Hn. split.
  - intros fuel s. by apply col_letter_loop_negative.
  - unfold _col_letter. by apply col_letter_loop_negative.
Qed.

Lemma col_letter_negative_never_returns_witness :
  -1 < 0 /\ (forall fuel s, col_letter_loop fuel (-1) s = None).
Proof.
  split; [lia|]. apply (col_letter_negative_never_returns (-1)). lia.
Defined.

(** ** Upsert without key columns *)

(** X19.  With an empty list of key columns every row matches: on a table
    with data rows [upsert_row] overwrites the first data row with the
    record, whatever that row held, and appends nothing. *)
Theorem upsert_row_without_keys (name : string) (rec : record) (w : world) :
  cache w !! name = None ->
  tail (ws_grid name w) <> [] ->
  norm_headers rec (ws_grid name w) <> [] ->
  exists w',
    upsert_row name [] rec w = (Ret tt, w') /\
    ws_grid name w'
    = <[1%nat := project rec (norm_headers rec (ws_grid name w))]>
        (norm_grid rec (ws_grid name w)) /\
    ws_grid name w' !! 1%nat = Some (project rec (norm_headers rec (ws_grid name w))) /\
    length (ws_grid name w') = length (ws_grid name w).
Proof.
  intros Hcold Hrows Hh.
  set (g0 := ws_grid name w) in *. set (hdr := norm_headers rec g0) in *.
  assert (upsert_target hdr [] rec (tail g0) = Some 0%nat) as Et.
  { unfold upsert_target. rewrite bool_decide_eq_false_2 by done.
    by destruct (tail g0). }
  assert (g0 <> []) as Hg0 by (intros E; by rewrite E in Hrows).
  assert (1 < length (norm_grid rec g0))%nat as Hlen.
  { rewrite norm_grid_length by done.
    destruct g0 as [|r [|r' g]]; simpl in *; try done. lia. }
  set (w' := mkWorld (<[name := upsert_result [] rec g0]> (sheets w))
                     (<[name := frame_after rec g0]> (cache w))).
  assert (ws_grid name w' = <[1%nat := project rec hdr]> (norm_grid rec g0)) as Hw'.
  { unfold ws_grid, w'. simpl. rewrite lookup_insert_eq. simpl.
    unfold upsert_result. fold g0 hdr. by rewrite Et. }
  exists w'. split; [by apply upsert_row_run|]. rewrite Hw'.
  split; [done|]. split; [by apply list_lookup_insert_eq|].
  rewrite length_insert. by apply norm_grid_length.
Qed.

Lemma upsert_row_without_keys_witness :
  exists w',
    upsert_row "T" [] [("name", VStr "Ibuprofen")] stock_table = (Ret tt, w') /\
    ws_grid "T" w' = [["name"; "loc"; "qty"]; ["Ibuprofen"; ""; ""]].
Proof.
  assert (cache stock_table !! "T" = None) as Hcold by reflexivity.
  assert (tail (ws_grid "T" stock_table) <> []) as Hrows by (vm_compute; discriminate).
  assert (norm_headers [("name", VStr "Ibuprofen")] (ws_grid "T" stock_table) <> []) as Hh
    by (vm_compute; discriminate).
  destruct (upsert_row_without_keys "T" [("name", VStr "Ibuprofen")] stock_table
              Hcold Hrows Hh) as (w' & Hrun & Hgrid & _).
  exists w'. split; [exact Hrun|]. rewrite Hgrid. vm_compute. reflexivity.
Defined.
